(** * Verification of the CSCS ReFrame uenv site configurations and of the
      one-line [Check] helper

    The development embeds three Python sources:

    - [config/systems-uenv/santis-uenv.py]   (module [UenvConfig], site [Santis])
    - [config/systems-uenv/pilatus-uenv.py]  (module [UenvConfig], site [Pilatus])
    - [checks/system/integration/utils.py]   (module [CheckUtil])

    Python values are embedded as follows.  A [str] is a [string] whose
    characters are code points below 256.  [None], [str], [list] and [dict]
    values (everything [yaml.BaseLoader] can produce) form the type
    [pyval]; a [dict] is an association list kept in insertion order.
    Exceptions are values of [exn] carried by the [result] monad.  What the
    operating system answers (environment variables, [stat], [open]) is a
    record [World]. *)

From Stdlib Require Import String Ascii List Bool Arith Lia Sorted FinFun.
From Stdlib Require Import DecimalString DecimalNat.
Import ListNotations.
Open Scope list_scope.
Open Scope string_scope.

(* ================================================================== *)
(** * Python strings and values *)
(* ================================================================== *)

Module Py.

(** The double quote character, written by its code. *)
Definition dquote : ascii := ascii_of_nat 34.
Definition squote : ascii := ascii_of_nat 39.
Definition backslash : ascii := ascii_of_nat 92.

Definition str1 (c : ascii) : string := String c EmptyString.

(** [s.split(sep)] for a one-character separator: every occurrence of the
    separator cuts, and the result always has at least one element. *)
Fixpoint split_on (sep : ascii) (s : string) : list string :=
  match s with
  | EmptyString => [EmptyString]
  | String c s' =>
      if Ascii.eqb c sep then EmptyString :: split_on sep s'
      else match split_on sep s' with
           | [] => [str1 c]
           | h :: t => String c h :: t
           end
  end.

(** [sep.join(l)] *)
Fixpoint join (sep : string) (l : list string) : string :=
  match l with
  | [] => EmptyString
  | [x] => x
  | x :: t => x ++ sep ++ join sep t
  end.

(** [s.startswith(p)] *)
Definition startswith (s p : string) : bool := String.prefix p s.

(** [c in s] for a character [c]. *)
Fixpoint mem_char (c : ascii) (s : string) : bool :=
  match s with
  | EmptyString => false
  | String d s' => Ascii.eqb c d || mem_char c s'
  end.

(** [x in l] for a list of strings. *)
Definition str_in (x : string) (l : list string) : bool :=
  existsb (String.eqb x) l.

(** [str.isspace] on one code point below 256: the characters on which
    [s.split()] cuts. *)
Definition isspace (c : ascii) : bool :=
  let n := nat_of_ascii c in
  (((9 <=? n) && (n <=? 13)) || ((28 <=? n) && (n <=? 32))
   || (n =? 133) || (n =? 160))%nat.

(** [s.split()]: cut on runs of white space, no empty piece is kept.
    [cur] is the piece being read. *)
Fixpoint split_ws_aux (s : string) (cur : string) : list string :=
  match s with
  | EmptyString =>
      match cur with EmptyString => [] | _ => [cur] end
  | String c s' =>
      if isspace c
      then match cur with
           | EmptyString => split_ws_aux s' EmptyString
           | _ => cur :: split_ws_aux s' EmptyString
           end
      else split_ws_aux s' (cur ++ str1 c)
  end.

Definition split_ws (s : string) : list string := split_ws_aux s EmptyString.

(** [n * c] : the character repeated. *)
Fixpoint repeat_char (c : ascii) (n : nat) : string :=
  match n with O => EmptyString | S k => String c (repeat_char c k) end.

(** [f'{s:W}'] for a string: left-justified in a field of width [W]. *)
Definition ljust (w : nat) (s : string) : string :=
  s ++ repeat_char " " (w - String.length s).

(** [str(n)] for a non-negative integer. *)
Definition str_of_nat (n : nat) : string :=
  NilZero.string_of_uint (Nat.to_uint n).

(** [f'{n:04}'] for a non-negative integer: decimal, padded on the left
    with zeros up to width 4 (wider numbers are not cut). *)
Definition fmt04 (n : nat) : string :=
  let d := str_of_nat n in
  repeat_char "0" (4 - String.length d) ++ d.

Definition hexdigit (n : nat) : ascii :=
  if (n <? 10)%nat then ascii_of_nat (48 + n) else ascii_of_nat (87 + n).

(** One character of [repr(s)], [q] being the quote that was chosen. *)
Definition repr_char (q : ascii) (c : ascii) : string :=
  let n := nat_of_ascii c in
  if Ascii.eqb c q || Ascii.eqb c backslash then String backslash (str1 c)
  else if (n =? 9)%nat then String backslash "t"
  else if (n =? 10)%nat then String backslash "n"
  else if (n =? 13)%nat then String backslash "r"
  else if ((n <? 32) || ((127 <=? n) && (n <=? 160)) || (n =? 173))%nat
       then String backslash
              (String "x" (String (hexdigit (n / 16)) (str1 (hexdigit (n mod 16)))))
  else str1 c.

Fixpoint repr_body (q : ascii) (s : string) : string :=
  match s with
  | EmptyString => EmptyString
  | String c s' => repr_char q c ++ repr_body q s'
  end.

(** [repr(s)] of a string: single quotes, unless the string holds a single
    quote and no double quote. *)
Definition repr_str (s : string) : string :=
  let q := if mem_char squote s && negb (mem_char dquote s)
           then dquote else squote in
  String q (repr_body q s ++ str1 q).

(** Values: what [yaml.load(..., Loader=yaml.BaseLoader)] returns, and what
    the [expected] arguments of [Check] hold. *)
#[warnings="-register-all"] Inductive pyval : Type :=
| PNone
| PStr (s : string)
| PList (l : list pyval)
| PDict (d : list (string * pyval)).

Definition dict : Type := list (string * pyval).

(** [repr(v)] *)
Fixpoint repr (v : pyval) : string :=
  match v with
  | PNone => "None"
  | PStr s => repr_str s
  | PList l => "[" ++ join ", " (map repr l) ++ "]"
  | PDict d =>
      "{" ++ join ", " (map (fun kv => repr_str (fst kv) ++ ": " ++ repr (snd kv)) d)
          ++ "}"
  end.

(** [str(v)]: a string prints as itself, everything else as its [repr]. *)
Definition str (v : pyval) : string :=
  match v with
  | PStr s => s
  | _ => repr v
  end.

(** Truth value of a Python object. *)
Definition truthy (v : pyval) : bool :=
  match v with
  | PNone => false
  | PStr s => negb (String.eqb s EmptyString)
  | PList l => match l with [] => false | _ => true end
  | PDict d => match d with [] => false | _ => true end
  end.

(** ** Dictionaries in insertion order *)

Fixpoint dict_get (k : string) (d : dict) : option pyval :=
  match d with
  | [] => None
  | (k', v) :: t => if String.eqb k k' then Some v else dict_get k t
  end.

(** [d[k] = v]: an existing key keeps its place, a new key goes last. *)
Fixpoint dict_set (k : string) (v : pyval) (d : dict) : dict :=
  match d with
  | [] => [(k, v)]
  | (k', v') :: t =>
      if String.eqb k k' then (k', v) :: t else (k', v') :: dict_set k v t
  end.

(** [del d[k]] on a dictionary that holds [k]. *)
Fixpoint dict_del (k : string) (d : dict) : dict :=
  match d with
  | [] => []
  | (k', v') :: t =>
      if String.eqb k k' then t else (k', v') :: dict_del k t
  end.

(** [d.update(m)] for a mapping [m]. *)
Definition dict_update (d m : dict) : dict :=
  fold_left (fun acc kv => dict_set (fst kv) (snd kv) acc) m d.

(** ** Exceptions *)

Inductive exn : Type :=
| ConfigError (msg : string)
| NameError (name : string)
| AttributeError (attr : string)
| KeyError (key : string)
| IndexError
| TypeError
| ValueError
| YAMLError
| OsError (strerror : string).

Inductive result (A : Type) : Type :=
| Ok (a : A)
| Raise (e : exn).
Arguments Ok {A} a.
Arguments Raise {A} e.

Definition bind {A B} (r : result A) (f : A -> result B) : result B :=
  match r with
  | Ok a => f a
  | Raise e => Raise e
  end.

Definition is_config_error {A} (r : result A) : bool :=
  match r with
  | Raise (ConfigError _) => true
  | _ => false
  end.

End Py.

Notation "'try' x <- c1 ;; c2" := (Py.bind c1 (fun x => c2))
  (at level 61, x name, c1 at next level, right associativity).

(* ================================================================== *)
(** * [pathlib.PurePosixPath], as far as the configurations use it *)
(* ================================================================== *)

Module PurePath.
Import Py.

(** A parsed path: the root ([""], ["/"] or ["//"]) and the components
    after it. *)
Record t : Type := mk { root : string; tail : list string }.

(** [posixpath.splitroot]: one leading slash is the root, exactly two are
    kept as such, three or more collapse to one. *)
Definition splitroot (p : string) : string * string :=
  match p with
  | String "/" (String "/" (String "/" r)) => ("/", String "/" (String "/" r))
  | String "/" (String "/" r) => ("//", r)
  | String "/" r => ("/", r)
  | _ => (EmptyString, p)
  end.

Definition keep_part (x : string) : bool :=
  negb (String.eqb x EmptyString) && negb (String.eqb x ".").

(** [Path(s)]: empty and ["."] components are dropped. *)
Definition parse (s : string) : t :=
  let '(r, rel) := splitroot s in
  mk r (filter keep_part (split_on "/" rel)).

Definition format (p : t) : string := root p ++ join "/" (tail p).

(** [str(p)] *)
Definition to_str (p : t) : string :=
  let f := format p in
  if String.eqb f EmptyString then "." else f.

(** [p.name]: the last component, if there is one. *)
Definition name (p : t) : string := last (tail p) EmptyString.

(** [s.rfind('.')], as an option. *)
Fixpoint rfind_dot (s : string) : option nat :=
  match s with
  | EmptyString => None
  | String c s' =>
      match rfind_dot s' with
      | Some i => Some (S i)
      | None => if Ascii.eqb c "." then Some 0 else None
      end
  end.

(** [p.stem]: the name without its last suffix; a dot in first or last
    position does not start a suffix (the rule of CPython 3.12). *)
Definition stem (p : t) : string :=
  let n := name p in
  match rfind_dot n with
  | Some i =>
      if ((0 <? i) && (i <? String.length n - 1))%nat
      then String.substring 0 i n else n
  | None => n
  end.

(** [p.parent] *)
Definition parent (p : t) : t :=
  match tail p with
  | [] => p
  | _ => mk (root p) (removelast (tail p))
  end.

(** [posixpath.join(a, b)] *)
Definition posix_join (a b : string) : string :=
  if startswith b "/" then b
  else if String.eqb a EmptyString then b
  else if Ascii.eqb (last (list_ascii_of_string a) " "%char) "/" then a ++ b
  else a ++ "/" ++ b.

(** [p / seg] *)
Definition joinpath (p : t) (seg : string) : t :=
  parse (posix_join (format p) seg).

End PurePath.

(* ================================================================== *)
(** * The uenv site configurations (santis-uenv.py, pilatus-uenv.py) *)
(* ================================================================== *)

Module UenvConfig.
Import Py.

(** The two configuration modules differ in a few places only; they are
    embedded as one program with the site as a parameter. *)
Inductive site : Type := Santis | Pilatus.

Definition site_name (s : site) : string :=
  match s with Santis => "santis" | Pilatus => "pilatus" end.

(** What [open(rfm_meta)] followed by [yaml.load] gives. *)
Inductive meta_read : Type :=
| OSError (strerror : string)
| BadYAML
| Loaded (v : pyval).

(** What [Path.exists()] does: it returns [True] when [stat] finds the
    path, and [False] when [stat] fails because the path is not there
    (ENOENT, ENOTDIR, EBADF, ELOOP) or cannot be a path at all; any
    other failure of [stat] (a name that is too long, a directory that
    may not be searched) leaves [exists()] as the [OSError] it is. *)
Inductive stat_answer : Type :=
| Found
| NotFound
| StatFails (strerror : string).

(** The answers of the host: environment variables, [Path.exists],
    reading the metadata file, [os.getcwd()] and [osext.osgroup()]. *)
Record World : Type := mkWorld {
  environ : string -> option string;
  path_exists : string -> stat_answer;
  read_meta : string -> meta_read;
  getcwd : string;
  osgroup : string
}.

(** ** Data of a site configuration *)

Record device : Type := mkDevice {
  dev_type : string; dev_arch : string; dev_num_devices : nat }.

Record resource : Type := mkResource {
  res_name : string; res_options : list string }.

Record partition : Type := mkPartition {
  part_name : string;
  part_scheduler : string;
  part_time_limit : string;
  part_environs : list string;
  part_container_platforms : list string;
  part_max_jobs : nat;
  part_cn_memory : nat;
  part_access : list string;
  part_resources : list resource;
  part_features : list string;
  part_devices : list device;
  part_launcher : string
}.

Record system : Type := mkSystem {
  sys_name : string;
  sys_descr : string;
  sys_hostnames : list string;
  sys_resourcesdir : string;
  sys_modules_system : string;
  sys_partitions : list partition
}.

Record mode : Type := mkMode {
  mode_name : string;
  mode_options : list string;
  mode_target_systems : list string
}.

Record site_configuration : Type := mkConfig {
  systems : list system;
  modes : list mode;
  environments : list dict;
  general_target_systems : list (list string)
}.

(** ** Reading [UENV] *)

Definition msg_uenv_missing : string :=
  "Enviroment variable UENV is missing or empty. Set to location of user environment to load.".

(** santis: [if not uenv: raise];  pilatus: [if uenv is None: raise]. *)
Definition check_uenv (s : site) (uenv : option string) : result string :=
  match s, uenv with
  | Santis, None => Raise (ConfigError msg_uenv_missing)
  | Santis, Some u =>
      if String.eqb u EmptyString then Raise (ConfigError msg_uenv_missing)
      else Ok u
  | Pilatus, None => Raise (ConfigError "UENV is not set")
  | Pilatus, Some u => Ok u
  end.

Definition default_mount : string := "/user-environment".

(** [uenv_first = uenv.split(',')[0]] *)
Definition uenv_first (uenv : string) : string :=
  hd EmptyString (split_on "," uenv).

(** [uenv_file, *image_mount = uenv_first.split(':')] and the choice of
    the mount point. *)
Definition parse_uenv (uenv : string) : string * string :=
  match split_on ":" (uenv_first uenv) with
  | [] => (EmptyString, default_mount)
  | uenv_file :: image_mount =>
      (uenv_file,
       match image_mount with
       | m :: _ => m
       | [] => default_mount
       end)
  end.

Definition msg_no_image (image_path : PurePath.t) : string :=
  "uenv image: '" ++ PurePath.to_str image_path ++ "' does not exist".

(** Options for the Slurm plugin that mounts the image. *)
Definition uenv_access (s : site) (uenv_file image_mount : string) : list string :=
  match s with
  | Santis => ["--uenv=" ++ uenv_file ++ ":" ++ image_mount]
  | Pilatus => ["--uenv-file=" ++ uenv_file ++ " --uenv-mount=" ++ image_mount]
  end.

(** ** Loading the metadata *)

Definition default_meta (image_path : PurePath.t) (image_name : string) : string :=
  PurePath.to_str
    (PurePath.joinpath (PurePath.parent image_path) (image_name ++ ".yaml")).

(** The file that is opened.  Only santis reads [UENV_REFRAME_META]. *)
Definition rfm_meta (s : site) (w : World)
    (image_path : PurePath.t) (image_name : string) : string :=
  match s with
  | Santis =>
      match environ w "UENV_REFRAME_META" with
      | Some m => if String.eqb m EmptyString
                  then default_meta image_path image_name else m
      | None => default_meta image_path image_name
      end
  | Pilatus => default_meta image_path image_name
  end.

Definition warn_no_meta (w : World) (image_name meta err : string) : string :=
  "WARNING: Unable to find ReFrame meta data for user environment "
  ++ image_name ++ " in " ++ meta ++ " (OSError: " ++ err ++ ", cwd:"
  ++ getcwd w ++ ").".

Definition msg_meta_problem (meta : string) : string :=
  "PI problem loading the metadata from '" ++ meta ++ "'".

(** The [try: ... except OSError] block: what is printed, and either the
    value of [image_environments] or the exception that leaves the block. *)
Definition load_metadata (s : site) (w : World)
    (image_path : PurePath.t) (image_name : string)
  : list string * result pyval :=
  let meta := rfm_meta s w image_path image_name in
  match read_meta w meta with
  | Loaded v => ([], Ok v)
  | BadYAML => ([], Raise YAMLError)
  | OSError err =>
      match s with
      | Santis => ([warn_no_meta w image_name meta err], Ok (PDict []))
      | Pilatus => ([], Raise (ConfigError (msg_meta_problem meta)))
      end
  end.

(** [image_environments.keys()] and [.items()] need a mapping. *)
Definition items_of (v : pyval) : result dict :=
  match v with
  | PDict d => Ok d
  | _ => Raise (AttributeError "keys")
  end.

(** [[f'{image_name}_{e}' for e in environs] or [f'{image_name}_builtin']] *)
Definition environ_names (image_name : string) (environs : list string)
  : list string :=
  match map (fun e => image_name ++ "_" ++ e) environs with
  | [] => [image_name ++ "_builtin"]
  | l => l
  end.

(** ** The partition list *)

Definition std_resources : list resource :=
  [ mkResource "switches" ["--switches={num_switches}"];
    mkResource "memory" ["--mem={mem_per_node}"] ].

(** santis writes the key ['name'] twice in the dictionary display
    (['mc'], then ['normal']); the second one is the one that stays. *)
Definition partitions (s : site) (w : World)
    (names : list string) (access : list string) : list partition :=
  match s with
  | Santis =>
      [ mkPartition "normal" "slurm" "10m" names ["Sarus"; "Singularity"]
          100 500 ("-pnormal" :: access) std_resources ["remote"; "uenv"]
          [mkDevice "gpu" "sm_80" 4] "srun" ]
  | Pilatus =>
      [ mkPartition "mc" "slurm" "10m" names ["Sarus"; "Singularity"]
          100 500
          (["-pnormal"; "-Cmc"; "--account=" ++ osgroup w] ++ access)
          std_resources ["remote"; "uenv"] [] "srun" ]
  end.

(** ** One environment record *)

Definition msg_inconsistent (k image_mount : string) : string :=
  "activation script of " ++ repr_str k
  ++ " is not consistent with the mount point: " ++ repr_str image_mount.

Definition msg_bad_activation : string :=
  "activation has to be either a file to be sourced or a list of commands to be executed to configure the environment".

(** The value stored under ['prepare_cmds'].  santis calls
    [activation_script.startswith] on whatever the field holds; pilatus
    first looks at the type of the field. *)
Definition prepare_cmds (s : site) (image_mount k : string) (activation : pyval)
  : result pyval :=
  match activation with
  | PStr a =>
      if startswith a image_mount then Ok (PList [PStr ("source " ++ a)])
      else Raise (ConfigError (msg_inconsistent k image_mount))
  | PList l =>
      match s with
      | Santis => Raise (AttributeError "startswith")
      | Pilatus => Ok (PList l)
      end
  | _ =>
      match s with
      | Santis => Raise (AttributeError "startswith")
      | Pilatus => Raise (ConfigError msg_bad_activation)
      end
  end.

(** [env.update(v)] with a sequence [v] reads each element as a
    [key, value] pair.  The walk returns the exception raised on the way,
    if any. *)
Fixpoint update_seq_error (l : list pyval) : option exn :=
  match l with
  | [] => None
  | x :: t =>
      match x with
      | PNone => Some TypeError
      | PStr p =>
          if (String.length p =? 2)%nat then update_seq_error t
          else Some ValueError
      | PList [PStr _; _] | PList [PNone; _] => update_seq_error t
      | PList [_; _] => Some TypeError
      | PList _ => Some ValueError
      | PDict [_; _] => update_seq_error t
      | PDict _ => Some ValueError
      end
  end.

(** An entry [v] that is not a mapping never gets past
    [env.update(v); v['activation']]: the update fails, or indexing with a
    string does. *)
Definition non_mapping_error (v : pyval) : exn :=
  match v with
  | PStr p => if String.eqb p EmptyString then TypeError else ValueError
  | PList l =>
      match update_seq_error l with Some e => e | None => TypeError end
  | _ => TypeError
  end.

(** The body of [for k, v in image_environments.items()]. *)
Definition make_environ (s : site) (image_name image_mount : string)
    (k : string) (v : pyval) : result dict :=
  match v with
  | PDict m =>
      let env := dict_update [("target_systems", PList [PStr (site_name s)])] m in
      match dict_get "activation" m with
      | None => Raise (KeyError "activation")
      | Some activation =>
          try cmds <- prepare_cmds s image_mount k activation ;;
          let env := dict_set "prepare_cmds" cmds env in
          let env := dict_set "name" (PStr (image_name ++ "_" ++ k)) env in
          Ok (dict_del "activation" env)
      end
  | _ => Raise (non_mapping_error v)
  end.

(** The loop: records are appended in the order of the metadata, and the
    first exception ends it. *)
Fixpoint environs_loop (s : site) (image_name image_mount : string)
    (items : dict) (actual_environs : list dict) : result (list dict) :=
  match items with
  | [] => Ok actual_environs
  | (k, v) :: rest =>
      try env <- make_environ s image_name image_mount k v ;;
      environs_loop s image_name image_mount rest (actual_environs ++ [env])
  end.

Definition production_options : list string :=
  [ "--unload-module=reframe";
    "--exec-policy=async";
    "-Sstrict_check=1";
    "--prefix=$SCRATCH/$USER/regression/production";
    "--report-file=$SCRATCH/$USER/regression/production/reports/prod_report_{sessionid}.json";
    "--save-log-files";
    "--tag=production";
    "--timestamp=%F_%H-%M-%S" ].

(** Everything after the metadata has been loaded.  [actual_environs] is
    bound only by [if image_environments: actual_environs = []], so with no
    entry the name is still unbound where [site_configuration] reads it. *)
Definition configure (s : site) (w : World)
    (image_name uenv_file image_mount : string) (image_environments : pyval)
  : result site_configuration :=
  try items <- items_of image_environments ;;
  let names := environ_names image_name (map fst items) in
  let parts := partitions s w names (uenv_access s uenv_file image_mount) in
  let bound := truthy image_environments in
  try actual_environs <- environs_loop s image_name image_mount items [] ;;
  if bound then
    Ok (mkConfig
          [ mkSystem (site_name s) (site_name s ++ " vcluster with uenv")
              [site_name s] "/apps/common/UES/reframe/resources/" "nomod" parts ]
          [ mkMode "production" production_options [site_name s] ]
          actual_environs
          [ [site_name s] ])
  else Raise (NameError "actual_environs").

(** The variables of the module, as functions of the value of [UENV]. *)
Definition uenv_file (uenv : string) : string := fst (parse_uenv uenv).
Definition image_mount (uenv : string) : string := snd (parse_uenv uenv).
Definition image_path (uenv : string) : PurePath.t :=
  PurePath.parse (uenv_file uenv).
Definition image_name (uenv : string) : string :=
  PurePath.stem (image_path uenv).

(** The whole module: what is printed while it is loaded, and either the
    value of [site_configuration] or the exception that aborts the load. *)
Definition load_config (s : site) (w : World)
  : list string * result site_configuration :=
  match check_uenv s (environ w "UENV") with
  | Raise e => ([], Raise e)
  | Ok uenv =>
      match path_exists w (PurePath.to_str (image_path uenv)) with
      | StatFails err => ([], Raise (OsError err))
      | NotFound => ([], Raise (ConfigError (msg_no_image (image_path uenv))))
      | Found =>
          let '(out, r) :=
            load_metadata s w (image_path uenv) (image_name uenv) in
          (out,
           try image_environments <- r ;;
           configure s w (image_name uenv) (uenv_file uenv) (image_mount uenv)
             image_environments)
      end
  end.

(** The host [w] with the environment variable [k] set to [v]. *)
Definition setenv (k v : string) (w : World) : World :=
  mkWorld (fun x => if String.eqb x k then Some v else environ w x)
          (path_exists w) (read_meta w) (getcwd w) (osgroup w).

(** The host [w] with the environment variable [k] unset. *)
Definition unsetenv (k : string) (w : World) : World :=
  mkWorld (fun x => if String.eqb x k then None else environ w x)
          (path_exists w) (read_meta w) (getcwd w) (osgroup w).

End UenvConfig.

(* ================================================================== *)
(** * The [Check] helper (checks/system/integration/utils.py) *)
(* ================================================================== *)

Module CheckUtil.
Import Py.

(** An instance of [Check], with the attributes [__init__] sets. *)
Record Check : Type := mkCheck {
  CLASS : string;
  CLASS_EXCLUDE : list string;
  CLASS_INCLUDE : list string;
  DEBUG : bool;
  SYSTEM : option string;
  MODULE_NAME : string
}.

(** [Check()] in a module called [module]. *)
Definition init (module : string) : Check :=
  mkCheck EmptyString [] [] false None module.

(** The class body handed to [make_test], with the name and the module of
    the class.  The three methods of the class are the same for every
    test ([set_command_options], [check_system], [validate] below);
    [check_system] reads [SYSTEM] of the instance that made the test
    when it runs: [t_required_system] is that value, which is the one
    of the call unless the instance is changed in between. *)
Record test_class : Type := mkTest {
  t_name : string;
  t_cmd : string;
  t_expected : pyval;
  t_not_expected : pyval;
  t_valid_systems : list string;
  t_valid_prog_environs : list string;
  t_time_limit : string;
  t_caller : string;
  t_module : string;
  t_required_system : option string
}.

(** What the calls of [Check] act on: the class attribute [Check.check_id],
    the classes registered with [rfm.simple_test], in order, and the lines
    printed. *)
Record State : Type := mkState {
  check_id : nat;
  registered : list test_class;
  printed : list string
}.

Definition initial : State := mkState 0 [] [].

(** The arguments of one call; [caller] is what [debuginfo()] reads off
    the stack, [expected], [not_expected] and [where] default to [None],
    [None] and the empty string. *)
Record call : Type := mkCall {
  c_self : Check;
  c_caller : string;
  c_cmd : string;
  c_expected : pyval;
  c_not_expected : pyval;
  c_where : string
}.

Definition is_empty (l : list string) : bool :=
  match l with [] => true | _ => false end.

(** The lists after [if exclude or include: ...]. *)
Definition effective_lists (self : Check) : list string * list string :=
  let exclude := CLASS_EXCLUDE self in
  let include := CLASS_INCLUDE self in
  if negb (is_empty exclude) || negb (is_empty include)
  then (if is_empty exclude then ["*"] else exclude,
        if is_empty include then ["*"] else include)
  else (exclude, include).

(** [false] when one of the two [return] statements of the filter is
    reached. *)
Definition class_selected (self : Check) : bool :=
  let '(exclude, include) := effective_lists self in
  if negb (str_in "*" exclude) then
    if str_in (CLASS self) exclude then false else true
  else if negb (str_in "*" include) then
    if negb (str_in (CLASS self) include) then false else true
  else true.

Definition lcl_CHECK_CLASS (self : Check) : string :=
  if String.eqb (CLASS self) EmptyString then EmptyString
  else "_" ++ CLASS self.

(** The argument [where] after the default and the forgiving leading [+]. *)
Definition fix_where (where_ : string) : string :=
  match where_ with
  | EmptyString => "*"
  | String c _ =>
      if Ascii.eqb c "-" || Ascii.eqb c "+" then where_ else "+" ++ where_
  end.

Definition test_name (id : nat) (self : Check) : string :=
  "Check_" ++ fmt04 id ++ lcl_CHECK_CLASS self.

Definition valid_systems (where_ : string) : list string :=
  split_ws (fix_where where_).

Definition shown (label : string) (v : pyval) : string :=
  match v with
  | PNone => EmptyString
  | _ => label ++ str v
  end.

(** The line printed in [DEBUG] mode. *)
Definition debug_line (c : call) (name : string) (systems environs : list string)
  : string :=
  c_caller c ++ " " ++ ljust 25 name ++ " " ++ ljust 80 (c_cmd c) ++ " -> "
  ++ shown "expected:" (c_expected c)
  ++ shown "not_expected:" (c_not_expected c)
  ++ "  on  " ++ repr (PList (map PStr systems))
  ++ " with " ++ repr (PList (map PStr environs)).

(** The class that [make_test] builds for a call numbered [id]. *)
Definition make_test (id : nat) (c : call) : test_class :=
  mkTest (test_name id (c_self c)) (c_cmd c) (c_expected c) (c_not_expected c)
         (valid_systems (c_where c)) ["builtin"] "2m" (c_caller c)
         (MODULE_NAME (c_self c)) (SYSTEM (c_self c)).

Section Factory.

(** The framework's part of a call, [make_test(...)] followed by
    [rfm.simple_test(t)]: it takes the class, or it refuses it by raising
    (the variable [valid_systems] of a ReFrame test, for one, checks every
    entry against the syntax of systems and features and raises
    [TypeError]). *)
Variable factory : test_class -> result unit.

(** [Check.__call__]: the state it leaves, and whether it returned or
    raised.  The counter is a class attribute: it has moved also when the
    call raises. *)
Definition call_check (c : call) (st : State) : State * result unit :=
  let id := S (check_id st) in
  if negb (class_selected (c_self c)) then
    (mkState id (registered st) (printed st), Ok tt)
  else
    let t := make_test id c in
    if DEBUG (c_self c) then
      (mkState id (registered st)
         (printed st ++
            [debug_line c (t_name t) (t_valid_systems t)
               (t_valid_prog_environs t)]),
       Ok tt)
    else
      match factory t with
      | Ok _ => (mkState id (registered st ++ [t]) (printed st), Ok tt)
      | Raise e => (mkState id (registered st) (printed st), Raise e)
      end.

(** The calls [cs], made one after the other: the state that a call
    leaves is the state that the next call finds, whether the call
    returned or raised.  ([cs] lists the calls that are made; a call that
    raises ends the loading of its own file, and which calls follow it is
    up to the framework that loads the files.) *)
Definition run_calls (cs : list call) (st : State) : State :=
  fold_left (fun s c => fst (call_check c s)) cs st.

End Factory.

(** ** The methods of a generated test *)

(** An instance of a generated class once the framework has set it up. *)
Record test : Type := mkInst {
  cls : test_class;
  executable : option string;
  expected : pyval;
  not_expected : pyval
}.

Definition instantiate (t : test_class) : test :=
  mkInst t None (t_expected t) (t_not_expected t).

(** How a hook or the sanity function ends. *)
Inductive outcome (A : Type) : Type :=
| Done (a : A)
| Skipped (msg : string)
| SanityError (msg : string)
| Failed (e : exn).
Arguments Done {A} a.
Arguments Skipped {A} msg.
Arguments SanityError {A} msg.
Arguments Failed {A} e.

(** [x if isinstance(x, list) else [x, 'stdout']] *)
Definition with_location (x : pyval) : pyval :=
  match x with
  | PList _ => x
  | _ => PList [x; PStr "stdout"]
  end.

(** [x[1]] *)
Definition item1 (x : pyval) : result pyval :=
  match x with
  | PList (_ :: loc :: _) => Ok loc
  | PList _ => Raise IndexError
  | PStr (String _ (String c _)) => Ok (PStr (str1 c))
  | PStr _ => Raise IndexError
  | PDict _ => Raise (KeyError "1")
  | PNone => Raise TypeError
  end.

(** [loc in ['stdout', 'stderr']] *)
Definition is_stream (loc : pyval) : bool :=
  match loc with
  | PStr s => String.eqb s "stdout" || String.eqb s "stderr"
  | _ => false
  end.

Definition msg_bad_location (field caller : string) : string :=
  "Location for " ++ field ++ " is not stdout or stderr " ++ caller.

(** The hook run after [setup]. *)
Definition set_command_options (t : test) : outcome test :=
  let t' := mkInst (cls t) (Some (t_cmd (cls t)))
              (with_location (expected t)) (with_location (not_expected t)) in
  match item1 (expected t') with
  | Raise e => Failed e
  | Ok loc =>
      if negb (is_stream loc)
      then Skipped (msg_bad_location "expected" (t_caller (cls t)))
      else
        match item1 (not_expected t') with
        | Raise e => Failed e
        | Ok loc' =>
            if negb (is_stream loc')
            then Skipped (msg_bad_location "not_expected" (t_caller (cls t)))
            else Done t'
        end
  end.

(** The second hook run after [setup]. *)
Definition check_system (current_system : string) (t : test) : outcome test :=
  if match t_required_system (cls t) with
     | Some s => negb (String.eqb current_system s)
     | None => true
     end
  then Skipped ("Required sytem "
                ++ match t_required_system (cls t) with
                   | Some s => s | None => "None" end
                ++ " but found " ++ current_system ++ ".")
  else Done t.

Section Sanity.

(** [re.search(pattern, text)] succeeds: the matcher of the framework. *)
Variable re_search : string -> string -> bool.

(** The outputs of the command. *)
Variables (out err : string).

(** [eval(f'test.{loc}')] for the two names that get past
    [set_command_options]. *)
Definition stream (loc : pyval) : result string :=
  match loc with
  | PStr "stdout" => Ok out
  | PStr "stderr" => Ok err
  | _ => Raise (AttributeError (str loc))
  end.

(** [pattern, where = field] *)
Definition unpack2 (field : pyval) : result (pyval * pyval) :=
  match field with
  | PList [a; b] => Ok (a, b)
  | PList _ => Raise ValueError
  | PStr (String a (String b EmptyString)) => Ok (PStr (str1 a), PStr (str1 b))
  | PStr _ => Raise ValueError
  | PDict [(a, _); (b, _)] => Ok (PStr a, PStr b)
  | PDict _ => Raise ValueError
  | PNone => Raise TypeError
  end.

(** One half of the body of [validate]: the field is unpacked and, unless
    the pattern is [None], the stream named by [field[1]] is looked up.
    The search itself is deferred: [None] stands for the value [True]
    that [a] and [b] start with. *)
Definition deferred_search (field : pyval) : result (option (pyval * string)) :=
  try pw <- unpack2 field ;;
  match fst pw with
  | PNone => Ok None
  | pattern =>
      try loc <- item1 field ;;
      try text <- stream loc ;;
      Ok (Some (pattern, text))
  end.

(** Evaluation of [sn.assert_found] ([found = true]) and of
    [sn.assert_not_found] ([found = false]). *)
Definition evaluate (found : bool) (msg : string -> string)
    (d : option (pyval * string)) : outcome unit :=
  match d with
  | None => Done tt
  | Some (PStr p, text) =>
      if Bool.eqb (re_search p text) found then Done tt
      else SanityError (msg p)
  | Some _ => Failed TypeError
  end.

(** The sanity function: both halves are prepared, then [a and b]
    evaluates [a] and, if it holds, leaves [b] to be evaluated. *)
Definition validate (t : test) : outcome unit :=
  let run := t_cmd (cls t) ++ " " ++ t_caller (cls t) in
  match deferred_search (expected t) with
  | Raise e => Failed e
  | Ok a =>
      match deferred_search (not_expected t) with
      | Raise e => Failed e
      | Ok b =>
          match evaluate true
                  (fun p => "Expected '" ++ p ++ "' running '" ++ run ++ "'") a
          with
          | Done _ =>
              evaluate false
                (fun p => "Did not expect '" ++ p ++ "' running '" ++ run ++ "'") b
          | r => r
          end
      end
  end.

(** A generated test on a system: the two hooks, then the sanity check of
    the outputs. *)
Definition run_test (current_system : string) (tc : test_class) : outcome unit :=
  match set_command_options (instantiate tc) with
  | Done t =>
      match check_system current_system t with
      | Done t => validate t
      | Skipped m => Skipped m
      | SanityError m => SanityError m
      | Failed e => Failed e
      end
  | Skipped m => Skipped m
  | SanityError m => SanityError m
  | Failed e => Failed e
  end.

End Sanity.

End CheckUtil.

(* ================================================================== *)
(** * Hosts and test files used as examples *)
(* ================================================================== *)

Import Py UenvConfig CheckUtil.

(** A host with one image and its metadata file; everything else is
    absent. *)
Definition host (uenv : option string) (image meta_file : string)
    (meta : meta_read) : World :=
  mkWorld
    (fun k => if String.eqb k "UENV" then uenv else None)
    (fun p => if String.eqb p image then Found else NotFound)
    (fun p => if String.eqb p meta_file then meta
              else OSError "[Errno 2] No such file or directory")
    "/home/user" "csstaff".

Definition two_environments : pyval :=
  PDict
    [ ("default",
       PDict [ ("activation", PStr "/user-environment/env/default/activate.sh");
               ("cc", PStr "gcc") ]);
      ("tools",
       PDict [ ("activation", PStr "/user-environment/env/tools/activate.sh") ]) ].

(** [UENV] names two pairs; the image of the first one exists and has
    metadata next to it. *)
Definition host_two_pairs : World :=
  host (Some "/images/prgenv.squashfs:/user-environment,/other.sqfs:/x")
       "/images/prgenv.squashfs" "/images/prgenv.yaml"
       (Loaded two_environments).

(** The image exists, its metadata file cannot be opened. *)
Definition host_no_metadata : World :=
  host (Some "/images/prgenv.squashfs")
       "/images/prgenv.squashfs" "/images/prgenv.yaml"
       (OSError "[Errno 2] No such file or directory: '/images/prgenv.yaml'").

(** [UENV] names an image that is not there. *)
Definition host_no_image : World :=
  host (Some "/images/missing.squashfs:/user-environment")
       "/images/prgenv.squashfs" "/images/prgenv.yaml"
       (Loaded two_environments).

(** [UENV] is not set. *)
Definition host_unset : World :=
  host None "/images/prgenv.squashfs" "/images/prgenv.yaml"
       (Loaded two_environments).

(** [UENV] is set to the empty string, and the working directory holds a
    file [.yaml] with one environment. *)
Definition host_empty_uenv : World :=
  host (Some EmptyString) "." ".yaml"
       (Loaded
          (PDict [ ("default",
                    PDict [ ("activation",
                             PStr "/user-environment/env/activate.sh") ]) ])).

(** ** Entries of the metadata *)

(** The ['activation'] field of an entry, when the entry is a mapping that
    has one. *)
Definition activation_of (v : pyval) : option pyval :=
  match v with
  | PDict m => dict_get "activation" m
  | _ => None
  end.

(** A malformed ['activation'] field: a string that does not start with
    the mount point, or a value that is neither a string nor a list. *)
Definition malformed (mount : string) (v : pyval) : bool :=
  match activation_of v with
  | Some (PStr a) => negb (startswith a mount)
  | Some (PList _) => false
  | Some _ => true
  | None => false
  end.

(** The entries a site looks at the activation of: mappings with an
    ['activation'] field, which santis moreover takes to be a string (the
    script to source). *)
Definition inspected (s : site) (v : pyval) : bool :=
  match activation_of v, s with
  | Some (PStr _), _ => true
  | Some _, Pilatus => true
  | _, _ => false
  end.

(** On santis the ['activation'] field is a mapping, not a script. *)
Definition host_activation_mapping : World :=
  host (Some "/images/prgenv.squashfs")
       "/images/prgenv.squashfs" "/images/prgenv.yaml"
       (Loaded
          (PDict [ ("default",
                    PDict [ ("activation",
                             PDict [ ("script",
                                      PStr "/user-environment/activate.sh") ]) ]) ])).

(** The second entry names a script outside the mount point. *)
Definition host_wrong_mount : World :=
  host (Some "/images/prgenv.squashfs:/user-environment")
       "/images/prgenv.squashfs" "/images/prgenv.yaml"
       (Loaded
          (PDict [ ("default",
                    PDict [ ("activation",
                             PStr "/user-environment/env/default/activate.sh") ]);
                   ("tools",
                    PDict [ ("activation", PStr "/opt/tools/activate.sh") ]) ])).

(** ** Reading the number back out of a test name *)

Definition is_digit (c : ascii) : bool :=
  let n := nat_of_ascii c in ((48 <=? n) && (n <=? 57))%nat.

Fixpoint all_digits (s : string) : bool :=
  match s with
  | EmptyString => true
  | String c s' => is_digit c && all_digits s'
  end.

(** The longest prefix made of decimal digits. *)
Fixpoint take_digits (s : string) : string :=
  match s with
  | EmptyString => EmptyString
  | String c s' => if is_digit c then String c (take_digits s') else EmptyString
  end.

(** The value of a run of decimal digits that is not empty. *)
Definition digits_value (ds : string) : option nat :=
  match ds with
  | EmptyString => None
  | _ => option_map Nat.of_uint (NilEmpty.uint_of_string ds)
  end.

(** The numeric part of a name [Check_<digits>...]: the value of the
    digits that follow [Check_]. *)
Definition numeric_part (name : string) : option nat :=
  match name with
  | String "C" (String "h" (String "e" (String "c" (String "k" (String "_" r))))) =>
      digits_value (take_digits r)
  | _ => None
  end.

(** ** What a call does, in two words *)

(** The call returns from the filter: the counter has moved, nothing is
    registered and nothing is printed. *)
Definition returns_early (factory : test_class -> result unit)
    (c : call) (st : State) : Prop :=
  call_check factory c st
  = (mkState (S (check_id st)) (registered st) (printed st), Ok tt).

(** The call gets past the filter: it prints in [DEBUG] mode, and hands
    its class to the factory otherwise, which registers it or raises. *)
Definition goes_on (factory : test_class -> result unit)
    (c : call) (st : State) : Prop :=
  call_check factory c st =
    if DEBUG (c_self c)
    then (mkState (S (check_id st)) (registered st)
            (printed st ++
               [debug_line c (test_name (S (check_id st)) (c_self c))
                  (valid_systems (c_where c)) ["builtin"]]),
          Ok tt)
    else match factory (make_test (S (check_id st)) c) with
         | Ok _ =>
             (mkState (S (check_id st))
                (registered st ++ [make_test (S (check_id st)) c])
                (printed st),
              Ok tt)
         | Raise e =>
             (mkState (S (check_id st)) (registered st) (printed st), Raise e)
         end.

(** A call whose class reaches the factory. *)
Definition is_handed (c : call) : bool :=
  class_selected (c_self c) && negb (DEBUG (c_self c)).

Definition accepted (factory : test_class -> result unit) (t : test_class)
  : bool :=
  match factory t with Ok _ => true | Raise _ => false end.

(** The tests a sequence of calls registers when the counter stands at
    [id]: the call in position [i] (from 0) is numbered [id + i + 1]. *)
Fixpoint created (factory : test_class -> result unit) (id : nat)
    (cs : list call) : list test_class :=
  match cs with
  | [] => []
  | c :: cs' =>
      if is_handed c && accepted factory (make_test (S id) c)
      then make_test (S id) c :: created factory (S id) cs'
      else created factory (S id) cs'
  end.

(** The classes that the factory refuses, numbered the same way. *)
Fixpoint refused (factory : test_class -> result unit) (id : nat)
    (cs : list call) : list test_class :=
  match cs with
  | [] => []
  | c :: cs' =>
      if is_handed c && negb (accepted factory (make_test (S id) c))
      then make_test (S id) c :: refused factory (S id) cs'
      else refused factory (S id) cs'
  end.

(** ** Example calls *)

Definition plain_call : call :=
  mkCall (init "checks.integration") "[checks.py:12]" "hostname"
         (PStr "nid") PNone "gpu".

Definition net_check : Check :=
  mkCheck "net" ["fs"] [] false (Some "santis") "checks.integration".

Definition fs_check : Check :=
  mkCheck "fs" ["fs"] [] false (Some "santis") "checks.integration".

Definition debug_check : Check :=
  mkCheck "net" [] [] true (Some "santis") "checks.integration".

Definition only_fs_check : Check :=
  mkCheck "net" [] ["fs"] false (Some "santis") "checks.integration".

Definition net_call : call :=
  mkCall net_check "[checks.py:20]" "ping -c1 nid001"
         (PList [PStr "1 received"; PStr "stdout"])
         (PList [PStr "unreachable"; PStr "stderr"]) "-gpu +mc".

Definition fs_call : call :=
  mkCall fs_check "[checks.py:21]" "ls /scratch" PNone (PStr "No such file") "".

Definition debug_call : call :=
  mkCall debug_check "[checks.py:22]" "uname -r" (PStr "cray") PNone "".

Definition only_fs_call : call :=
  mkCall only_fs_check "[checks.py:23]" "uname -r" (PStr "cray") PNone "".

Definition bad_location_call : call :=
  mkCall (init "checks.integration") "[checks.py:30]" "dmesg"
         (PList [PStr "ok"; PStr "syslog"]) PNone "".

(** Closes a goal [~ In x l] on a list of string constants. *)
Ltac not_among :=
  simpl; let H := fresh in
  intro H; repeat (destruct H as [H|H]; [discriminate|]); exact H.

(** ** Entries that the loop accepts *)

(** An entry that [make_environ] turns into a record: a mapping whose
    ['activation'] is a script under the mount point or, on pilatus, a
    list of commands. *)
Definition entry_ok (s : site) (mount : string) (v : pyval) : bool :=
  match activation_of v with
  | Some (PStr a) => startswith a mount
  | Some (PList _) => match s with Pilatus => true | Santis => false end
  | _ => false
  end.

(** The metadata file holds the empty mapping. *)
Definition host_empty_metadata : World :=
  host (Some "/images/prgenv.squashfs")
       "/images/prgenv.squashfs" "/images/prgenv.yaml" (Loaded (PDict [])).

(** The metadata file is empty: [yaml.load] gives [None]. *)
Definition host_blank_metadata : World :=
  host (Some "/images/prgenv.squashfs")
       "/images/prgenv.squashfs" "/images/prgenv.yaml" (Loaded PNone).

(** The second entry has no ['activation'] field; the third one is not
    even a mapping. *)
Definition host_missing_activation : World :=
  host (Some "/images/prgenv.squashfs")
       "/images/prgenv.squashfs" "/images/prgenv.yaml"
       (Loaded
          (PDict [ ("default",
                    PDict [ ("activation",
                             PStr "/user-environment/env/default/activate.sh") ]);
                   ("tools", PDict [ ("cc", PStr "gcc") ]);
                   ("broken", PStr "x") ])).

(** The metadata is kept away from the image. *)
Definition host_meta_apart : World :=
  host (Some "/images/prgenv.squashfs")
       "/images/prgenv.squashfs" "/meta/prgenv.yaml"
       (Loaded two_environments).

(** An entry that overrides ['target_systems'] and brings keys of its
    own. *)
Definition rich_entry : dict :=
  [ ("cc", PStr "gcc");
    ("activation", PStr "/user-environment/env/default/activate.sh");
    ("target_systems", PList [PStr "daint"]);
    ("name", PStr "mine") ].

(** ** Calls, by what becomes of them *)

Definition is_filtered (c : call) : bool := negb (class_selected (c_self c)).
Definition is_printed (c : call) : bool :=
  class_selected (c_self c) && DEBUG (c_self c).

(** ['*'] in the exclude list, nothing in the include list. *)
Definition exclude_all_check : Check :=
  mkCheck "fs" ["*"; "fs"] [] false (Some "santis") "checks.integration".

Definition exclude_all_call : call :=
  mkCall exclude_all_check "[checks.py:40]" "ls /scratch" PNone PNone "".

(** A list of three items as [expected], a list of one as [not_expected]. *)
Definition three_items_call : call :=
  mkCall net_check "[checks.py:41]" "dmesg"
         (PList [PStr "ok"; PStr "stdout"; PStr "extra"]) PNone "".

Definition one_item_call : call :=
  mkCall net_check "[checks.py:42]" "dmesg"
         PNone (PList [PStr "panic"]) "".

(** ** Paths as [pathlib] keeps them *)

(** A path component: not empty, not a lone dot, no slash inside. *)
Definition plain_part (x : string) : Prop :=
  x <> EmptyString /\ x <> "." /\ mem_char "/" x = false.

(** The shape of every parsed path. *)
Definition normal_path (p : PurePath.t) : Prop :=
  (PurePath.root p = EmptyString \/ PurePath.root p = "/"
   \/ PurePath.root p = "//")
  /\ Forall plain_part (PurePath.tail p).

(** ** White space *)

Fixpoint has_space (s : string) : bool :=
  match s with
  | EmptyString => false
  | String c s' => isspace c || has_space s'
  end.

(** The first character is one of [*], [-] and [+]. *)
Definition starts_with_sign (x : string) : Prop :=
  exists c rest, x = String c rest /\ (c = "*" \/ c = "-" \/ c = "+")%char.

(** ** A class factory that checks the systems *)

(** [\w] on one code point below 256: letters, digits and the
    underscore. *)
Definition is_word (c : ascii) : bool :=
  let n := nat_of_ascii c in
  (((48 <=? n) && (n <=? 57)) || ((65 <=? n) && (n <=? 90))
   || ((97 <=? n) && (n <=? 122)) || (n =? 95)
   || (n =? 170) || (n =? 178) || (n =? 179) || (n =? 181) || (n =? 185)
   || (n =? 186) || ((188 <=? n) && (n <=? 190))
   || ((192 <=? n) && (n <=? 214)) || ((216 <=? n) && (n <=? 246))
   || (248 <=? n))%nat.

Fixpoint all_chars (f : ascii -> bool) (s : string) : bool :=
  match s with
  | EmptyString => true
  | String c s' => f c && all_chars f s'
  end.

(** A name: [\w[-.\w]*]. *)
Definition is_name (x : string) : bool :=
  match x with
  | EmptyString => false
  | String c r =>
      is_word c
      && all_chars (fun d => is_word d || Ascii.eqb d "-" || Ascii.eqb d ".") r
  end.

Definition is_name_or_star (x : string) : bool :=
  String.eqb x "*" || is_name x.

(** A system, or a system and a partition: [name(:name)?], [*] standing
    for any. *)
Definition is_system (x : string) : bool :=
  match split_on ":" x with
  | [a] => is_name_or_star a
  | [a; b] => is_name_or_star a && is_name_or_star b
  | _ => false
  end.

(** What stands before and after the first [c]. *)
Fixpoint cut_at (c : ascii) (s : string) : option (string * string) :=
  match s with
  | EmptyString => None
  | String d s' =>
      if Ascii.eqb d c then Some (EmptyString, s')
      else match cut_at c s' with
           | Some (a, b) => Some (String d a, b)
           | None => None
           end
  end.

(** A feature [+name] or [-name], or an option [%name=value]. *)
Definition is_feature (x : string) : bool :=
  match x with
  | String "+" r | String "-" r => is_name r
  | String "%" r =>
      match cut_at "=" r with
      | Some (k, v) =>
          is_name k && negb (String.eqb v EmptyString) && negb (has_space v)
      | None => false
      end
  | _ => false
  end.

(** One entry of [valid_systems], as the ReFrame variable of that name
    takes it: a system with or without a partition, or features and
    options with white space between them. *)
Definition is_valid_system (x : string) : bool :=
  is_system x
  || (match x with
      | EmptyString => false
      | String c _ =>
          negb (isspace c)
          && negb (isspace (last (list_ascii_of_string x) " "%char))
      end
      && forallb is_feature (split_ws x)).

(** A factory that refuses, with [TypeError], a class with an entry of
    [valid_systems] that is not in that syntax, and takes every other
    class. *)
Definition checking_factory (t : test_class) : result unit :=
  if forallb is_valid_system (t_valid_systems t) then Ok tt
  else Raise TypeError.


(** ** More hosts *)

(** A name of 300 letters: [stat] fails on it with "File name too long". *)
Definition long_image : string :=
  "/images/" ++ repeat_char "a" 300 ++ ".squashfs".

Definition host_long_name : World :=
  mkWorld
    (fun k => if String.eqb k "UENV" then Some long_image else None)
    (fun p => if (255 <? String.length p)%nat
              then StatFails ("[Errno 36] File name too long: '" ++ p ++ "'")
              else NotFound)
    (fun p => OSError "[Errno 2] No such file or directory")
    "/home/user" "csstaff".

(* ================================================================== *)
(** * The embedding at work *)
(* ================================================================== *)

Example split_pairs :
  split_on "," "/a.sqfs:/m,/b.sqfs" = ["/a.sqfs:/m"; "/b.sqfs"]
  /\ split_on ":" "/a.sqfs:/m:x" = ["/a.sqfs"; "/m"; "x"]
  /\ split_on ":" EmptyString = [EmptyString].
Proof. repeat split. Qed.

Example split_systems :
  split_ws "  +gpu   -mc " = ["+gpu"; "-mc"] /\ split_ws "*" = ["*"].
Proof. repeat split. Qed.

Example paths :
  PurePath.to_str (PurePath.parse "/images//./prgenv.squashfs")
    = "/images/prgenv.squashfs"
  /\ PurePath.stem (PurePath.parse "/images/prgenv.v2.squashfs") = "prgenv.v2"
  /\ PurePath.stem (PurePath.parse "/images/.hidden") = ".hidden"
  /\ PurePath.to_str (PurePath.parse EmptyString) = "."
  /\ default_meta (PurePath.parse "prgenv.squashfs") "prgenv" = "prgenv.yaml"
  /\ default_meta (PurePath.parse "/prgenv.squashfs") "prgenv" = "/prgenv.yaml".
Proof. repeat split. Qed.

Example counters :
  fmt04 7 = "0007" /\ fmt04 1234 = "1234" /\ fmt04 (123 * 1000) = "123000".
Proof. repeat split. Qed.

Example reprs :
  repr_str "default" = "'default'"
  /\ repr (PList [PStr "-gpu"; PStr "+mc"]) = "['-gpu', '+mc']"
  /\ repr (PDict [("k", PNone)]) = "{'k': None}".
Proof. repeat split. Qed.

(** santis on a host with two environments. *)
Example santis_two_environments :
  exists cfg,
    load_config Santis host_two_pairs = ([], Ok cfg)
    /\ map part_name (flat_map sys_partitions (systems cfg)) = ["normal"]
    /\ flat_map part_access (flat_map sys_partitions (systems cfg))
       = ["-pnormal"; "--uenv=/images/prgenv.squashfs:/user-environment"]
    /\ environments cfg
       = [ [ ("target_systems", PList [PStr "santis"]);
             ("cc", PStr "gcc");
             ("prepare_cmds",
              PList [PStr "source /user-environment/env/default/activate.sh"]);
             ("name", PStr "prgenv_default") ];
           [ ("target_systems", PList [PStr "santis"]);
             ("prepare_cmds",
              PList [PStr "source /user-environment/env/tools/activate.sh"]);
             ("name", PStr "prgenv_tools") ] ].
Proof. eexists. repeat split. Qed.

(** santis when the metadata file is not there: after the warning,
    [actual_environs] is read without having been bound. *)
Example santis_no_metadata :
  snd (load_config Santis host_no_metadata) = Raise (NameError "actual_environs").
Proof. reflexivity. Qed.

(** A list of commands as activation: taken by pilatus, not by santis. *)
Example activation_commands :
  prepare_cmds Pilatus "/user-environment" "default" (PList [PStr "module load x"])
    = Ok (PList [PStr "module load x"])
  /\ prepare_cmds Santis "/user-environment" "default" (PList [PStr "module load x"])
    = Raise (AttributeError "startswith").
Proof. repeat split. Qed.

(** Five calls in a row: the second is excluded, the third is in [DEBUG]
    mode, the fifth is not in the include list. *)
Example five_calls :
  check_id (run_calls checking_factory
              [plain_call; fs_call; debug_call; net_call; only_fs_call]
              initial) = 5
  /\ map t_name
       (registered
          (run_calls checking_factory
             [plain_call; fs_call; debug_call; net_call; only_fs_call]
             initial))
     = ["Check_0001"; "Check_0004_net"]
  /\ map t_valid_systems
       (registered
          (run_calls checking_factory
             [plain_call; fs_call; debug_call; net_call; only_fs_call]
             initial))
     = [["+gpu"]; ["-gpu"; "+mc"]].
Proof. repeat split. Qed.

(* ================================================================== *)
(** * Properties of the site configurations *)
(* ================================================================== *)

Section LoadConfig.

Variables (s : site) (w : World).

(** A value of [UENV] that gets past the first test of the module. *)
Lemma check_uenv_ok (u : string) :
  environ w "UENV" = Some u ->
  (s = Santis -> u <> EmptyString) ->
  check_uenv s (environ w "UENV") = Ok u.
Proof.
  intros Hu Hne. rewrite Hu. destruct s; simpl; auto.
  destruct (String.eqb_spec u EmptyString) as [E|E]; auto.
  exfalso. now apply Hne.
Qed.

(** The module, once [UENV] is accepted and the image is there. *)
Lemma load_config_loaded (u : string) :
  check_uenv s (environ w "UENV") = Ok u ->
  path_exists w (PurePath.to_str (image_path u)) = Found ->
  load_config s w =
    (fst (load_metadata s w (image_path u) (image_name u)),
     try image_environments <-
       snd (load_metadata s w (image_path u) (image_name u)) ;;
     configure s w (image_name u) (uenv_file u) (image_mount u)
       image_environments).
Proof.
  intros Hc He. unfold load_config. rewrite Hc, He.
  now destruct (load_metadata s w (image_path u) (image_name u)).
Qed.

End LoadConfig.

(** C6, as the code has it: when [exists()] answers that the image path
    taken from [UENV] is not there, loading raises a [ConfigError] whose
    message quotes that path; when [stat] fails for another reason,
    [exists()] raises and loading ends with that [OSError]. *)
Theorem C6_missing_image_raises (s : site) (w : World) (u : string) :
  environ w "UENV" = Some u ->
  (s = Santis -> u <> EmptyString) ->
  (path_exists w (PurePath.to_str (image_path u)) = NotFound ->
   load_config s w =
     ([], Raise (ConfigError ("uenv image: '"
                              ++ PurePath.to_str (image_path u)
                              ++ "' does not exist"))))
  /\ (forall err,
        path_exists w (PurePath.to_str (image_path u)) = StatFails err ->
        load_config s w = ([], Raise (OsError err))).
Proof.
  intros Hu Hne. split.
  - intros Hex. unfold load_config.
    rewrite (check_uenv_ok s w u Hu Hne), Hex. reflexivity.
  - intros err Hex. unfold load_config.
    rewrite (check_uenv_ok s w u Hu Hne), Hex. reflexivity.
Qed.

Lemma C6_missing_image_raises_witness :
  load_config Santis host_no_image =
    ([], Raise (ConfigError "uenv image: '/images/missing.squashfs' does not exist")).
Proof.
  apply (C6_missing_image_raises Santis host_no_image
           "/images/missing.squashfs:/user-environment").
  - reflexivity.
  - intros _. discriminate.
  - reflexivity.
Defined.

(** C6 as stated fails where [stat] does not answer: an image whose name
    is too long for the file system is not there, and loading ends with
    the [OSError] of [exists()], not with a [ConfigError]. *)
Lemma C6_long_name_counterexample :
  environ host_long_name "UENV" = Some long_image
  /\ path_exists host_long_name (PurePath.to_str (image_path long_image))
     = StatFails ("[Errno 36] File name too long: '" ++ long_image ++ "'")
  /\ load_config Pilatus host_long_name
     = ([], Raise (OsError ("[Errno 36] File name too long: '"
                            ++ long_image ++ "'")))
  /\ load_config Santis host_long_name
     = ([], Raise (OsError ("[Errno 36] File name too long: '"
                            ++ long_image ++ "'")))
  /\ is_config_error (snd (load_config Pilatus host_long_name)) = false
  /\ is_config_error (snd (load_config Santis host_long_name)) = false.
Proof.
  split; [reflexivity|]. split; [vm_compute; reflexivity|].
  split; [vm_compute; reflexivity|]. split; [vm_compute; reflexivity|].
  split; vm_compute; reflexivity.
Qed.

(** C5, as the code has it: santis refuses a missing or empty [UENV],
    pilatus refuses a missing one; both raise a [ConfigError] with a
    message about [UENV] and produce no site configuration. *)
Theorem C5_uenv_guard (w : World) :
  (environ w "UENV" = None \/ environ w "UENV" = Some EmptyString ->
   load_config Santis w =
     ([], Raise (ConfigError
        "Enviroment variable UENV is missing or empty. Set to location of user environment to load.")))
  /\
  (environ w "UENV" = None ->
   load_config Pilatus w = ([], Raise (ConfigError "UENV is not set"))).
Proof.
  split.
  - intros [H|H]; unfold load_config; rewrite H; reflexivity.
  - intros H. unfold load_config. rewrite H. reflexivity.
Qed.

Lemma C5_uenv_guard_witness :
  load_config Santis host_unset =
    ([], Raise (ConfigError
       "Enviroment variable UENV is missing or empty. Set to location of user environment to load."))
  /\ load_config Santis host_empty_uenv =
    ([], Raise (ConfigError
       "Enviroment variable UENV is missing or empty. Set to location of user environment to load."))
  /\ load_config Pilatus host_unset =
    ([], Raise (ConfigError "UENV is not set")).
Proof.
  split; [|split].
  - apply (proj1 (C5_uenv_guard host_unset)). left. reflexivity.
  - apply (proj1 (C5_uenv_guard host_empty_uenv)). right. reflexivity.
  - apply (proj2 (C5_uenv_guard host_unset)). reflexivity.
Defined.

(** C5 as stated fails on pilatus: with [UENV] set to the empty string the
    test [uenv is None] lets it through, the image path is the working
    directory, and where a file [.yaml] is found there a site
    configuration is produced. *)
Lemma C5_pilatus_empty_uenv_counterexample :
  environ host_empty_uenv "UENV" = Some EmptyString
  /\ is_config_error (snd (load_config Pilatus host_empty_uenv)) = false
  /\ exists cfg,
       load_config Pilatus host_empty_uenv = ([], Ok cfg)
       /\ map sys_name (systems cfg) = ["pilatus"]
       /\ flat_map part_environs (flat_map sys_partitions (systems cfg))
          = ["_default"].
Proof.
  split; [reflexivity|]. split; [reflexivity|].
  eexists. split; [reflexivity|]. split; reflexivity.
Qed.

(** C1, as the code has it.  When the metadata file cannot be opened,
    pilatus raises a [ConfigError] that names the file; santis catches the
    error, prints a warning, goes on with the empty set of environments
    and raises no [ConfigError]. *)
Theorem C1_unreadable_metadata (s : site) (w : World) (u err : string) :
  environ w "UENV" = Some u ->
  (s = Santis -> u <> EmptyString) ->
  path_exists w (PurePath.to_str (image_path u)) = Found ->
  read_meta w (rfm_meta s w (image_path u) (image_name u)) = OSError err ->
  match s with
  | Pilatus =>
      load_config Pilatus w =
        ([], Raise (ConfigError
               ("PI problem loading the metadata from '"
                ++ rfm_meta Pilatus w (image_path u) (image_name u) ++ "'")))
  | Santis =>
      load_config Santis w =
        (["WARNING: Unable to find ReFrame meta data for user environment "
          ++ image_name u ++ " in "
          ++ rfm_meta Santis w (image_path u) (image_name u)
          ++ " (OSError: " ++ err ++ ", cwd:" ++ getcwd w ++ ")."],
         configure Santis w (image_name u) (uenv_file u) (image_mount u)
           (PDict []))
      /\ environ_names (image_name u) (map fst (@nil (string * pyval)))
         = [image_name u ++ "_builtin"]
      /\ is_config_error (snd (load_config Santis w)) = false
  end.
Proof.
  intros Hu Hne Hex Hrd.
  pose proof (load_config_loaded s w u (check_uenv_ok s w u Hu Hne) Hex) as L.
  unfold load_metadata in L. rewrite Hrd in L.
  destruct s; simpl in L.
  - split; [exact L|]. split; [reflexivity|]. rewrite L. reflexivity.
  - exact L.
Qed.

Lemma C1_unreadable_metadata_witness :
  load_config Pilatus host_no_metadata =
    ([], Raise (ConfigError
           "PI problem loading the metadata from '/images/prgenv.yaml'")).
Proof.
  apply (C1_unreadable_metadata Pilatus host_no_metadata
           "/images/prgenv.squashfs"
           "[Errno 2] No such file or directory: '/images/prgenv.yaml'").
  - reflexivity.
  - discriminate.
  - reflexivity.
  - reflexivity.
Defined.

(** C1 as stated fails on santis: the metadata file cannot be opened, and
    what santis raises is not a [ConfigError]; it has printed a warning
    and gone on with no environment. *)
Lemma C1_santis_unreadable_metadata_counterexample :
  environ host_no_metadata "UENV" = Some "/images/prgenv.squashfs"
  /\ path_exists host_no_metadata "/images/prgenv.squashfs" = Found
  /\ read_meta host_no_metadata "/images/prgenv.yaml"
     = OSError "[Errno 2] No such file or directory: '/images/prgenv.yaml'"
  /\ load_metadata Santis host_no_metadata
       (image_path "/images/prgenv.squashfs") (image_name "/images/prgenv.squashfs")
     = (["WARNING: Unable to find ReFrame meta data for user environment prgenv in /images/prgenv.yaml (OSError: [Errno 2] No such file or directory: '/images/prgenv.yaml', cwd:/home/user)."],
        Ok (PDict []))
  /\ is_config_error (snd (load_config Santis host_no_metadata)) = false.
Proof.
  repeat split.
Qed.

(** ** Splitting the value of [UENV] *)

Lemma split_on_app (c : ascii) (a b : string) :
  mem_char c a = false ->
  split_on c (a ++ String c b) = a :: split_on c b.
Proof.
  induction a as [|d a IH]; simpl; intros H.
  - now rewrite Ascii.eqb_refl.
  - apply orb_false_iff in H. destruct H as [Hd Ha].
    rewrite Ascii.eqb_sym, Hd, (IH Ha). reflexivity.
Qed.

Lemma split_on_no_sep (c : ascii) (a : string) :
  mem_char c a = false -> split_on c a = [a].
Proof.
  induction a as [|d a IH]; simpl; intros H; [reflexivity|].
  apply orb_false_iff in H. destruct H as [Hd Ha].
  rewrite Ascii.eqb_sym, Hd, (IH Ha). reflexivity.
Qed.

Lemma uenv_first_app (pair rest : string) :
  mem_char "," pair = false -> uenv_first (pair ++ "," ++ rest) = pair.
Proof.
  intros H. unfold uenv_first. simpl.
  change (String "," rest) with (String ","%char rest).
  now rewrite (split_on_app "," pair rest H).
Qed.

Lemma uenv_first_alone (pair : string) :
  mem_char "," pair = false -> uenv_first pair = pair.
Proof.
  intros H. unfold uenv_first. now rewrite (split_on_no_sep "," pair H).
Qed.

(** Two hosts that differ in [UENV] only, with values that are both
    accepted and have the same first pair, load the same configuration. *)
Lemma load_config_same_first (s : site) (w : World) (u1 u2 : string) :
  uenv_first u1 = uenv_first u2 ->
  check_uenv s (Some u1) = Ok u1 ->
  check_uenv s (Some u2) = Ok u2 ->
  load_config s (setenv "UENV" u1 w) = load_config s (setenv "UENV" u2 w).
Proof.
  intros H H1 H2.
  assert (P : parse_uenv u1 = parse_uenv u2)
    by (unfold parse_uenv; now rewrite H).
  unfold load_config. simpl environ. rewrite H1, H2.
  unfold image_name, image_path, uenv_file, image_mount. rewrite P.
  reflexivity.
Qed.


(** ** Dictionaries *)

Lemma dict_get_set_same (k : string) (v : pyval) (d : dict) :
  dict_get k (dict_set k v d) = Some v.
Proof.
  induction d as [|[k' v'] d IH]; simpl.
  - now rewrite String.eqb_refl.
  - destruct (String.eqb k k') eqn:E; simpl; rewrite E; auto.
Qed.

Lemma dict_get_del_other (k k' : string) (d : dict) :
  String.eqb k k' = false ->
  dict_get k (dict_del k' d) = dict_get k d.
Proof.
  intros N. induction d as [|[k0 v0] d IH]; simpl; [reflexivity|].
  destruct (String.eqb k' k0) eqn:E.
  - apply String.eqb_eq in E. subst k0. now rewrite N.
  - simpl. now rewrite IH.
Qed.

(** ** The loop over the entries *)

Section Loop.

Variables (s : site) (name mount : string).

(** A record that was built carries the name [{image}_{key}]. *)
Lemma make_environ_name (k : string) (v : pyval) (env : dict) :
  make_environ s name mount k v = Ok env ->
  dict_get "name" env = Some (PStr (name ++ "_" ++ k)).
Proof.
  unfold make_environ. destruct v as [|p|l|m]; try discriminate.
  destruct (dict_get "activation" m) as [a|]; try discriminate.
  destruct (prepare_cmds s mount k a) as [c|e]; simpl; try discriminate.
  intros H. injection H as <-.
  rewrite dict_get_del_other by reflexivity.
  apply dict_get_set_same.
Qed.

Lemma environs_loop_names (items : dict) :
  forall acc l,
    environs_loop s name mount items acc = Ok l ->
    map (dict_get "name") l =
      (map (dict_get "name") acc
       ++ map (fun k => Some (PStr (name ++ "_" ++ k))) (map fst items))%list.
Proof.
  induction items as [|[k v] items IH]; simpl; intros acc l H.
  - injection H as <-. now rewrite app_nil_r.
  - destruct (make_environ s name mount k v) as [env|e] eqn:E;
      simpl in H; try discriminate.
    rewrite (IH _ _ H), map_app. simpl.
    rewrite (make_environ_name k v env E), <- app_assoc. reflexivity.
Qed.

(** An entry with a malformed activation, among entries the site
    inspects, ends the loop with a [ConfigError]. *)
Lemma environs_loop_malformed (items : dict) :
  Forall (fun kv => inspected s (snd kv) = true) items ->
  Exists (fun kv => malformed mount (snd kv) = true) items ->
  forall acc,
  exists msg,
    environs_loop s name mount items acc = Raise (ConfigError msg)
    /\ ((exists k, In k (map fst items) /\ msg = msg_inconsistent k mount)
        \/ (s = Pilatus /\ msg = msg_bad_activation)).
Proof.
  induction items as [|[k v] items IH]; intros HF HE acc.
  - inversion HE.
  - inversion HF as [|x xs Hv HF']. subst. simpl in Hv.
    assert (Step :
      (exists msg, make_environ s name mount k v = Raise (ConfigError msg)
         /\ (msg = msg_inconsistent k mount
             \/ (s = Pilatus /\ msg = msg_bad_activation)))
      \/ (malformed mount v = false
          /\ exists env, make_environ s name mount k v = Ok env)).
    { unfold inspected, malformed, activation_of in *.
      unfold make_environ.
      destruct v as [|p|l|m]; try discriminate.
      destruct (dict_get "activation" m) as [a|]; try discriminate.
      destruct a as [|a|l|d]; destruct s; try discriminate; simpl;
        try destruct (startswith a mount); simpl; eauto 7. }
    destruct Step as [(msg & E & Hm) | (Hok & env & E)].
    + exists msg. simpl. rewrite E. simpl. split; [reflexivity|].
      destruct Hm as [->|Hm]; [left; exists k; simpl; auto | right; exact Hm].
    + inversion HE as [x xs Hbad | x xs Hbad]; subst.
      * simpl in Hbad. congruence.
      * destruct (IH HF' Hbad (acc ++ [env])%list) as (msg & L & Hm).
        exists msg. simpl. rewrite E. simpl. split; [exact L|].
        destruct Hm as [(k' & Hin & ->)|Hm]; [left|right; exact Hm].
        exists k'. simpl. auto.
Qed.

End Loop.

(** C3, as the code has it.  Among entries that are mappings with an
    ['activation'] field (on santis: whose field is a string), one entry
    with a malformed field makes loading raise a [ConfigError]: either the
    message that names a key and the mount point, or, on pilatus, the
    message about what an activation has to be. *)
Theorem C3_malformed_activation (s : site) (w : World) (u : string) (d : dict) :
  environ w "UENV" = Some u ->
  (s = Santis -> u <> EmptyString) ->
  path_exists w (PurePath.to_str (image_path u)) = Found ->
  read_meta w (rfm_meta s w (image_path u) (image_name u)) = Loaded (PDict d) ->
  Forall (fun kv => inspected s (snd kv) = true) d ->
  Exists (fun kv => malformed (image_mount u) (snd kv) = true) d ->
  exists msg : string,
    load_config s w = ([], Raise (ConfigError msg))
    /\ ((exists k, In k (map fst d)
           /\ msg = "activation script of " ++ repr_str k
                    ++ " is not consistent with the mount point: "
                    ++ repr_str (image_mount u))
        \/ (s = Pilatus
            /\ msg = "activation has to be either a file to be sourced or a list of commands to be executed to configure the environment")).
Proof.
  intros Hu Hne Hex Hrd HF HE.
  destruct (environs_loop_malformed s (image_name u) (image_mount u) d HF HE [])
    as (msg & L & Hm).
  exists msg. split; [|exact Hm].
  rewrite (load_config_loaded s w u (check_uenv_ok s w u Hu Hne) Hex).
  unfold load_metadata. rewrite Hrd. simpl.
  unfold configure. simpl. rewrite L. reflexivity.
Qed.

Lemma C3_malformed_activation_witness :
  exists msg : string,
    load_config Pilatus host_wrong_mount = ([], Raise (ConfigError msg))
    /\ ((exists k, In k ["default"; "tools"]
           /\ msg = "activation script of " ++ repr_str k
                    ++ " is not consistent with the mount point: "
                    ++ repr_str "/user-environment")
        \/ (Pilatus = Pilatus
            /\ msg = "activation has to be either a file to be sourced or a list of commands to be executed to configure the environment")).
Proof.
  apply (C3_malformed_activation Pilatus host_wrong_mount
           "/images/prgenv.squashfs:/user-environment"
           [ ("default",
              PDict [ ("activation",
                       PStr "/user-environment/env/default/activate.sh") ]);
             ("tools",
              PDict [ ("activation", PStr "/opt/tools/activate.sh") ]) ]).
  - reflexivity.
  - discriminate.
  - reflexivity.
  - reflexivity.
  - repeat constructor.
  - apply Exists_cons_tl. apply Exists_cons_hd. reflexivity.
Defined.

(** C3 as stated fails on santis: an ['activation'] field that is neither
    a string nor a list is malformed, and what santis raises for it is an
    [AttributeError], not a [ConfigError]. *)
Lemma C3_santis_activation_mapping_counterexample :
  read_meta host_activation_mapping "/images/prgenv.yaml"
  = Loaded
      (PDict [ ("default",
                PDict [ ("activation",
                         PDict [ ("script",
                                  PStr "/user-environment/activate.sh") ]) ]) ])
  /\ malformed "/user-environment"
       (PDict [ ("activation",
                 PDict [ ("script", PStr "/user-environment/activate.sh") ]) ])
     = true
  /\ load_config Santis host_activation_mapping
     = ([], Raise (AttributeError "startswith"))
  /\ is_config_error (snd (load_config Santis host_activation_mapping)) = false.
Proof.
  split; [reflexivity|]. split; [reflexivity|]. split; reflexivity.
Qed.

Lemma check_uenv_some (s : site) (u u' : string) :
  check_uenv s (Some u) = Ok u' -> u' = u.
Proof.
  destruct s; simpl.
  - destruct (String.eqb u EmptyString); [discriminate|]. congruence.
  - congruence.
Qed.

(** C4: in a configuration that loading produced, the [environs] list
    of the partition (there is exactly one) and the ['name'] fields of
    the environment records are, key by key and in the order of the
    metadata, the image stem, an underscore and the key. *)
Theorem C4_environment_names
    (s : site) (w : World) (u : string) (out : list string)
    (cfg : site_configuration) :
  environ w "UENV" = Some u ->
  load_config s w = (out, Ok cfg) ->
  exists d : dict,
    read_meta w (rfm_meta s w (image_path u) (image_name u)) = Loaded (PDict d)
    /\ d <> []
    /\ map part_environs (flat_map sys_partitions (systems cfg))
       = [map (fun k => PurePath.stem (image_path u) ++ "_" ++ k) (map fst d)]
    /\ (forall sys p, In sys (systems cfg) -> In p (sys_partitions sys) ->
          part_environs p
          = map (fun k => PurePath.stem (image_path u) ++ "_" ++ k) (map fst d))
    /\ map (dict_get "name") (environments cfg)
       = map (fun k => Some (PStr (PurePath.stem (image_path u) ++ "_" ++ k)))
             (map fst d).
Proof.
  intros Hu H. unfold load_config in H. rewrite Hu in H.
  destruct (check_uenv s (Some u)) as [u'|e] eqn:C; [|discriminate].
  apply check_uenv_some in C. subst u'.
  destruct (path_exists w (PurePath.to_str (image_path u)));
    [|discriminate|discriminate].
  unfold load_metadata in H.
  destruct (read_meta w (rfm_meta s w (image_path u) (image_name u)))
    as [err| |v] eqn:R.
  - destruct s; simpl in H; discriminate.
  - discriminate.
  - injection H as _ H. simpl in H. unfold configure in H.
    destruct v as [|p|l|d]; try discriminate. simpl in H.
    exists d. split; [reflexivity|].
    destruct (environs_loop s (image_name u) (image_mount u) d []) as [l|e] eqn:L;
      simpl in H; [|discriminate].
    destruct d as [|kv d]; [discriminate|].
    injection H as <-. split; [discriminate|]. split; [|split].
    + destruct s; reflexivity.
    + simpl. intros sys p [<-|[]] Hp. simpl in Hp.
      destruct s; simpl in Hp; destruct Hp as [<-|[]]; reflexivity.
    + simpl environments.
      apply (environs_loop_names s (image_name u) (image_mount u) _ _ _ L).
Qed.

Lemma C4_environment_names_witness :
  exists cfg : site_configuration,
    load_config Pilatus host_two_pairs = ([], Ok cfg)
    /\ map part_environs (flat_map sys_partitions (systems cfg))
       = [["prgenv_default"; "prgenv_tools"]]
    /\ map (dict_get "name") (environments cfg)
       = [Some (PStr "prgenv_default"); Some (PStr "prgenv_tools")].
Proof.
  eexists. split; [reflexivity|].
  destruct (C4_environment_names Pilatus host_two_pairs
              "/images/prgenv.squashfs:/user-environment,/other.sqfs:/x"
              [] _ eq_refl eq_refl) as (d & R & _ & P & _ & N).
  vm_compute in R. injection R as <-. split; [exact P | exact N].
Defined.

(* ================================================================== *)
(** * Properties of the [Check] helper *)
(* ================================================================== *)

Lemma str_in_In (x : string) (l : list string) :
  str_in x l = true <-> In x l.
Proof.
  unfold str_in. rewrite existsb_exists. split.
  - intros (y & Hy & E). apply String.eqb_eq in E. now subst.
  - intros H. exists x. split; [exact H | apply String.eqb_refl].
Qed.

Lemma str_in_not_In (x : string) (l : list string) :
  str_in x l = false <-> ~ In x l.
Proof.
  rewrite <- str_in_In. destruct (str_in x l); split; intros H;
    congruence || (exfalso; auto).
Qed.

(** The two ways a call ends, by the filter. *)
Lemma call_check_cases (factory : test_class -> result unit)
    (c : call) (st : State) :
  (class_selected (c_self c) = false -> returns_early factory c st)
  /\ (class_selected (c_self c) = true -> goes_on factory c st).
Proof.
  unfold returns_early, goes_on, call_check.
  split; intros ->; simpl; [reflexivity|].
  destruct (DEBUG (c_self c)); [reflexivity|].
  destruct (factory (make_test (S (check_id st)) c)) as [[]|e]; reflexivity.
Qed.

Section Filter.

Variable self : Check.

Lemma class_selected_eq :
  class_selected self =
    if negb (str_in "*" (fst (effective_lists self)))
    then negb (str_in (CLASS self) (fst (effective_lists self)))
    else if negb (str_in "*" (snd (effective_lists self)))
    then str_in (CLASS self) (snd (effective_lists self))
    else true.
Proof.
  unfold class_selected.
  destruct (effective_lists self) as [e i]. simpl.
  destruct (str_in "*" e), (str_in "*" i),
    (str_in (CLASS self) e), (str_in (CLASS self) i); reflexivity.
Qed.

Lemma excluded_class :
  ~ In "*" (fst (effective_lists self)) ->
  In (CLASS self) (fst (effective_lists self)) ->
  class_selected self = false.
Proof.
  intros H1 H2. rewrite class_selected_eq.
  apply str_in_not_In in H1. apply str_in_In in H2. now rewrite H1, H2.
Qed.

Lemma not_excluded_class :
  ~ In "*" (fst (effective_lists self)) ->
  ~ In (CLASS self) (fst (effective_lists self)) ->
  class_selected self = true.
Proof.
  intros H1 H2. rewrite class_selected_eq.
  apply str_in_not_In in H1. apply str_in_not_In in H2. now rewrite H1, H2.
Qed.

Lemma not_included_class :
  In "*" (fst (effective_lists self)) ->
  ~ In "*" (snd (effective_lists self)) ->
  ~ In (CLASS self) (snd (effective_lists self)) ->
  class_selected self = false.
Proof.
  intros H1 H2 H3. rewrite class_selected_eq.
  apply str_in_In in H1. apply str_in_not_In in H2. apply str_in_not_In in H3.
  now rewrite H1, H2, H3.
Qed.

Lemma included_class :
  In "*" (fst (effective_lists self)) ->
  In "*" (snd (effective_lists self))
  \/ In (CLASS self) (snd (effective_lists self)) ->
  class_selected self = true.
Proof.
  intros H1 H2. rewrite class_selected_eq.
  apply str_in_In in H1. rewrite H1. simpl.
  destruct (str_in "*" (snd (effective_lists self))) eqn:E; simpl;
    [reflexivity|].
  destruct H2 as [H2|H2]; apply str_in_In in H2; congruence.
Qed.

End Filter.

(** C10: exclusion comes before inclusion.  When one of the two lists is
    not empty, the empty one counts as [['*']].  A class in an exclude
    list without ['*'] returns from the call whatever the include list
    holds, and a class outside such a list goes on without the include
    list being looked at.  Only with ['*'] in the exclude list does the
    include list decide: a class missing from an include list without
    ['*'] returns.  With both lists empty every call goes on. *)
Theorem C10_exclusion_before_inclusion
    (factory : test_class -> result unit) (c : call) (st : State) :
  let self := c_self c in
  let exclude := fst (effective_lists self) in
  let include := snd (effective_lists self) in
  (CLASS_EXCLUDE self <> [] \/ CLASS_INCLUDE self <> [] ->
     exclude = match CLASS_EXCLUDE self with [] => ["*"] | l => l end
     /\ include = match CLASS_INCLUDE self with [] => ["*"] | l => l end)
  /\ (~ In "*" exclude -> In (CLASS self) exclude -> returns_early factory c st)
  /\ (~ In "*" exclude -> ~ In (CLASS self) exclude -> goes_on factory c st)
  /\ (In "*" exclude -> ~ In "*" include -> ~ In (CLASS self) include ->
        returns_early factory c st)
  /\ (In "*" exclude -> In "*" include \/ In (CLASS self) include ->
        goes_on factory c st)
  /\ (CLASS_EXCLUDE self = [] -> CLASS_INCLUDE self = [] ->
        goes_on factory c st).
Proof.
  intros self exclude include.
  destruct (call_check_cases factory c st) as [Early On].
  split; [|split; [|split; [|split; [|split]]]].
  - unfold exclude, include, effective_lists. fold self.
    destruct (CLASS_EXCLUDE self), (CLASS_INCLUDE self); simpl;
      intros [H|H]; try (now contradiction H); split; reflexivity.
  - intros H1 H2. apply Early. now apply excluded_class.
  - intros H1 H2. apply On. now apply not_excluded_class.
  - intros H1 H2 H3. apply Early. now apply not_included_class.
  - intros H1 H2. apply On. now apply included_class.
  - intros H1 H2. apply On. apply not_excluded_class;
      unfold effective_lists; fold self; rewrite H1, H2; simpl; tauto.
Qed.

Lemma C10_exclusion_before_inclusion_witness :
  returns_early checking_factory fs_call initial
  /\ goes_on checking_factory net_call initial
  /\ returns_early checking_factory only_fs_call initial.
Proof.
  split; [|split].
  - destruct (C10_exclusion_before_inclusion checking_factory fs_call initial)
      as (_ & Excluded & _).
    apply Excluded; [not_among | simpl; auto].
  - destruct (C10_exclusion_before_inclusion checking_factory net_call initial)
      as (_ & _ & Other & _).
    apply Other; not_among.
  - destruct (C10_exclusion_before_inclusion checking_factory only_fs_call
                initial)
      as (_ & _ & _ & Missing & _).
    apply Missing; [simpl; auto | not_among | not_among].
Defined.

(** ** Decimal numbers in test names *)

Lemma length_repeat_char (c : ascii) (n : nat) :
  String.length (repeat_char c n) = n.
Proof. induction n; simpl; auto. Qed.

Lemma length_app (a b : string) :
  String.length (a ++ b) = String.length a + String.length b.
Proof. induction a; simpl; auto. Qed.

Lemma length_fmt04 (n : nat) :
  String.length (fmt04 n) = Nat.max 4 (String.length (str_of_nat n)).
Proof.
  unfold fmt04. rewrite length_app, length_repeat_char. lia.
Qed.



Lemma to_uint_not_nil (n : nat) : Nat.to_uint n <> Decimal.Nil.
Proof.
  intros E.
  pose proof (DecimalNat.Unsigned.to_of (Nat.to_uint n)) as H.
  rewrite DecimalNat.Unsigned.of_to, E in H. discriminate H.
Qed.

Lemma str_of_nat_eq (n : nat) :
  str_of_nat n = NilEmpty.string_of_uint (Nat.to_uint n).
Proof.
  unfold str_of_nat, NilZero.string_of_uint.
  pose proof (to_uint_not_nil n). destruct (Nat.to_uint n); congruence.
Qed.

Lemma all_digits_string_of_uint (d : Decimal.uint) :
  all_digits (NilEmpty.string_of_uint d) = true.
Proof. induction d; simpl; auto. Qed.

Lemma all_digits_app (a b : string) :
  all_digits a = true -> all_digits b = true -> all_digits (a ++ b) = true.
Proof.
  induction a; simpl; auto. intros H Hb.
  apply andb_true_iff in H. destruct H as [-> H]. simpl. auto.
Qed.

Lemma all_digits_zeros (k : nat) : all_digits (repeat_char "0" k) = true.
Proof. induction k; simpl; auto. Qed.

Lemma all_digits_fmt04 (n : nat) : all_digits (fmt04 n) = true.
Proof.
  unfold fmt04. apply all_digits_app; [apply all_digits_zeros|].
  rewrite str_of_nat_eq. apply all_digits_string_of_uint.
Qed.

(** The digits are read back up to the first character that is not one. *)
Lemma take_digits_app (ds rest : string) :
  all_digits ds = true ->
  take_digits rest = EmptyString ->
  take_digits (ds ++ rest) = ds.
Proof.
  intros H R. induction ds as [|c ds IH]; simpl in *; [exact R|].
  apply andb_true_iff in H. destruct H as [-> H]. now rewrite IH.
Qed.

Lemma uint_of_zeros (k : nat) (s : string) (d : Decimal.uint) :
  NilEmpty.uint_of_string s = Some d ->
  exists d', NilEmpty.uint_of_string (repeat_char "0" k ++ s) = Some d'
             /\ Nat.of_uint d' = Nat.of_uint d.
Proof.
  intros H. induction k as [|k (d' & E & V)]; simpl.
  - now exists d.
  - exists (Decimal.D0 d'). rewrite E. simpl. split; [reflexivity|].
    rewrite <- V. reflexivity.
Qed.

Lemma fmt04_not_empty (n : nat) : fmt04 n <> EmptyString.
Proof.
  intros E. pose proof (length_fmt04 n) as L. rewrite E in L.
  change (String.length EmptyString) with 0 in L. lia.
Qed.

Lemma digits_value_nonempty (ds : string) :
  ds <> EmptyString ->
  digits_value ds = option_map Nat.of_uint (NilEmpty.uint_of_string ds).
Proof. destruct ds; [congruence | reflexivity]. Qed.

(** The digits of [fmt04 n] spell [n]. *)
Lemma digits_value_fmt04 (n : nat) : digits_value (fmt04 n) = Some n.
Proof.
  rewrite (digits_value_nonempty _ (fmt04_not_empty n)).
  unfold fmt04. rewrite str_of_nat_eq.
  destruct (uint_of_zeros
              (4 - String.length (NilEmpty.string_of_uint (Nat.to_uint n)))
              _ _ (NilEmpty.usu (Nat.to_uint n))) as (d' & E & V).
  rewrite E. simpl. rewrite V. now rewrite DecimalNat.Unsigned.of_to.
Qed.

(** The number of a test can be read back from its name. *)
Lemma numeric_part_test_name (id : nat) (self : Check) :
  numeric_part (test_name id self) = Some id.
Proof.
  unfold test_name, numeric_part. simpl.
  assert (T : take_digits (fmt04 id ++ lcl_CHECK_CLASS self) = fmt04 id).
  { apply take_digits_app; [apply all_digits_fmt04|].
    unfold lcl_CHECK_CLASS.
    destruct (String.eqb (CLASS self) EmptyString); reflexivity. }
  rewrite T. apply digits_value_fmt04.
Qed.




(** ** The running counter *)

Section Counter.

Variable factory : test_class -> result unit.

Lemma check_id_call (c : call) (st : State) :
  check_id (fst (call_check factory c st)) = S (check_id st).
Proof.
  unfold call_check.
  destruct (class_selected (c_self c)), (DEBUG (c_self c)); try reflexivity.
  simpl. destruct (factory (make_test (S (check_id st)) c)); reflexivity.
Qed.

Lemma registered_call (c : call) (st : State) :
  registered (fst (call_check factory c st))
  = (registered st ++ created factory (check_id st) [c])%list.
Proof.
  unfold call_check. cbn [created]. unfold is_handed, accepted.
  destruct (class_selected (c_self c)), (DEBUG (c_self c)); simpl;
    rewrite ?app_nil_r; try reflexivity.
  destruct (factory (make_test (S (check_id st)) c)); simpl;
    now rewrite ?app_nil_r.
Qed.

Lemma created_cons (id : nat) (c : call) (cs : list call) :
  created factory id (c :: cs)
  = (created factory id [c] ++ created factory (S id) cs)%list.
Proof.
  simpl.
  destruct (is_handed c && accepted factory (make_test (S id) c));
    reflexivity.
Qed.

Lemma run_calls_cons (c : call) (cs : list call) (st : State) :
  run_calls factory (c :: cs) st
  = run_calls factory cs (fst (call_check factory c st)).
Proof. reflexivity. Qed.

Lemma run_calls_state (cs : list call) :
  forall st,
    check_id (run_calls factory cs st) = check_id st + length cs
    /\ registered (run_calls factory cs st)
       = (registered st ++ created factory (check_id st) cs)%list.
Proof.
  induction cs as [|c cs IH]; intros st.
  - simpl. now rewrite Nat.add_0_r, app_nil_r.
  - rewrite run_calls_cons.
    destruct (IH (fst (call_check factory c st))) as [I R].
    rewrite I, R, check_id_call, registered_call.
    rewrite (created_cons (check_id st) c cs).
    split; [simpl; lia | now rewrite app_assoc].
Qed.

Lemma run_calls_app (pre post : list call) (st : State) :
  run_calls factory (pre ++ post) st
  = run_calls factory post (run_calls factory pre st).
Proof. apply fold_left_app. Qed.

(** The numbers of the tests made from the counter value [id] go up, and
    lie among the [length cs] values after [id]. *)
Lemma created_numbers (cs : list call) :
  forall id,
  exists ns : list nat,
    map (fun t => numeric_part (t_name t)) (created factory id cs)
    = map Some ns
    /\ StronglySorted lt ns
    /\ Forall (fun n => id < n <= id + length cs) ns.
Proof.
  induction cs as [|c cs IH]; intros id.
  - exists []. simpl. repeat split; constructor.
  - destruct (IH (S id)) as (ns & M & Srt & F). cbn [created length].
    destruct (is_handed c && accepted factory (make_test (S id) c)).
    + exists (S id :: ns). cbn [map]. rewrite M.
      change (t_name (make_test (S id) c)) with (test_name (S id) (c_self c)).
      rewrite numeric_part_test_name.
      split; [reflexivity|]. split.
      * constructor; [exact Srt|].
        eapply Forall_impl; [|exact F]. simpl. intros; lia.
      * constructor; [lia|].
        eapply Forall_impl; [|exact F]. simpl. intros; lia.
    + exists ns. split; [exact M|]. split; [exact Srt|].
      eapply Forall_impl; [|exact F]. simpl. intros; lia.
Qed.

Lemma sorted_NoDup (ns : list nat) : StronglySorted lt ns -> NoDup ns.
Proof.
  induction 1 as [|n ns Srt IH F]; constructor; [|exact IH].
  intros I. rewrite Forall_forall in F. specialize (F n I). lia.
Qed.

Lemma created_names_NoDup (id : nat) (cs : list call) :
  NoDup (map t_name (created factory id cs)).
Proof.
  destruct (created_numbers cs id) as (ns & M & Srt & _).
  apply (NoDup_map_inv numeric_part). rewrite map_map, M.
  apply Injective_map_NoDup; [|now apply sorted_NoDup].
  intros x y E. now injection E.
Qed.

Lemma created_at (pre : list call) (c : call) (post : list call) :
  forall id,
    class_selected (c_self c) = true ->
    DEBUG (c_self c) = false ->
    factory (make_test (id + length pre + 1) c) = Ok tt ->
    In (make_test (id + length pre + 1) c)
       (created factory id (pre ++ c :: post)).
Proof.
  induction pre as [|p pre IH]; intros id Hs Hd Hf.
  - cbn [app created length] in *.
    replace (id + 0 + 1) with (S id) in * by lia.
    unfold is_handed, accepted. rewrite Hs, Hd, Hf. simpl. now left.
  - cbn [app created length] in *.
    replace (id + S (length pre) + 1) with (S id + length pre + 1) in * by lia.
    specialize (IH (S id) Hs Hd Hf).
    destruct (is_handed p && accepted factory (make_test (S id) p));
      simpl; auto.
Qed.

End Counter.

(** C8: every call moves the counter by one, before the filter and the
    [DEBUG] return (and so also when the factory then refuses the class).
    So the numbers in the names of the tests that a sequence of calls
    registers go up strictly, no two names are the same, and the call in
    position [i] gets the number [i + 1] past the starting value,
    whatever the calls before it did. *)
Theorem C8_counter
    (factory : test_class -> result unit) (cs : list call) (st : State) :
  (forall c st0, check_id (fst (call_check factory c st0)) = S (check_id st0))
  /\ check_id (run_calls factory cs st) = check_id st + length cs
  /\ registered (run_calls factory cs st)
     = (registered st ++ created factory (check_id st) cs)%list
  /\ (exists ns : list nat,
        map (fun t => numeric_part (t_name t))
            (created factory (check_id st) cs)
        = map Some ns
        /\ StronglySorted lt ns
        /\ Forall (fun n => check_id st < n <= check_id st + length cs) ns)
  /\ NoDup (map t_name (created factory (check_id st) cs))
  /\ (forall pre c post,
        cs = (pre ++ c :: post)%list ->
        class_selected (c_self c) = true ->
        DEBUG (c_self c) = false ->
        numeric_part (t_name (make_test (check_id st + length pre + 1) c))
        = Some (check_id st + length pre + 1)
        /\ (factory (make_test (check_id st + length pre + 1) c) = Ok tt ->
            registered (fst (call_check factory c (run_calls factory pre st)))
            = (registered (run_calls factory pre st)
               ++ [make_test (check_id st + length pre + 1) c])%list
            /\ In (make_test (check_id st + length pre + 1) c)
                  (created factory (check_id st) cs))
        /\ (forall e,
              factory (make_test (check_id st + length pre + 1) c) = Raise e ->
              snd (call_check factory c (run_calls factory pre st)) = Raise e
              /\ registered
                   (fst (call_check factory c (run_calls factory pre st)))
                 = registered (run_calls factory pre st))).
Proof.
  split; [exact (check_id_call factory)|].
  destruct (run_calls_state factory cs st) as [I R].
  split; [exact I|]. split; [exact R|].
  split; [apply created_numbers|]. split; [apply created_names_NoDup|].
  intros pre c post -> Hs Hd.
  destruct (run_calls_state factory pre st) as [I' _].
  assert (N : S (check_id (run_calls factory pre st))
              = check_id st + length pre + 1) by lia.
  split; [apply numeric_part_test_name|]. split.
  - intros Hf. split; [|now apply created_at].
    unfold call_check. rewrite Hs, Hd, N, Hf. reflexivity.
  - intros e Hf. unfold call_check. rewrite Hs, Hd, N, Hf. split; reflexivity.
Qed.

Lemma C8_counter_witness :
  registered (fst (call_check checking_factory net_call
                     (run_calls checking_factory
                        [plain_call; fs_call; debug_call] initial)))
  = (registered (run_calls checking_factory
                   [plain_call; fs_call; debug_call] initial)
     ++ [make_test (0 + 3 + 1) net_call])%list
  /\ In (make_test (0 + 3 + 1) net_call)
        (created checking_factory 0
           [plain_call; fs_call; debug_call; net_call; only_fs_call]).
Proof.
  destruct (C8_counter checking_factory
              [plain_call; fs_call; debug_call; net_call; only_fs_call] initial)
    as (_ & _ & _ & _ & _ & At).
  destruct (At [plain_call; fs_call; debug_call] net_call [only_fs_call]
              eq_refl eq_refl eq_refl) as (_ & Taken & _).
  apply Taken. reflexivity.
Defined.

(** ** Where the expected output is looked for *)

Lemma is_stream_false (loc : pyval) :
  loc <> PStr "stdout" -> loc <> PStr "stderr" -> is_stream loc = false.
Proof.
  intros H1 H2. destruct loc as [|x|l|d]; try reflexivity. simpl.
  destruct (String.eqb_spec x "stdout") as [->|_]; [now contradiction H1|].
  destruct (String.eqb_spec x "stderr") as [->|_]; [now contradiction H2|].
  reflexivity.
Qed.

Lemma is_stream_true (loc : pyval) :
  loc = PStr "stdout" \/ loc = PStr "stderr" -> is_stream loc = true.
Proof. intros [->| ->]; reflexivity. Qed.

(** C2: the place where [expected] and [not_expected] are searched.  An
    argument that is not a list gets the location ['stdout']; a pair
    [[regex, location]] keeps its location, and the search reads the
    stream of that name; a location that is neither ['stdout'] nor
    ['stderr'] makes the hook skip the test, with a message that says
    which of the two fields is at fault and where the check was made, and
    the sanity check is then never run. *)
Theorem C2_output_location
    (re_search : string -> string -> bool) (out err sys : string)
    (tc : test_class) :
  (forall x : pyval,
     (forall l, x <> PList l) -> item1 (with_location x) = Ok (PStr "stdout"))
  /\ (forall r loc : pyval, item1 (with_location (PList [r; loc])) = Ok loc)
  /\ (forall loc : pyval,
        item1 (with_location (t_expected tc)) = Ok loc ->
        loc <> PStr "stdout" -> loc <> PStr "stderr" ->
        set_command_options (instantiate tc)
        = Skipped ("Location for expected is not stdout or stderr " ++ t_caller tc)
        /\ run_test re_search out err sys tc
           = Skipped ("Location for expected is not stdout or stderr "
                      ++ t_caller tc))
  /\ (forall loc loc' : pyval,
        item1 (with_location (t_expected tc)) = Ok loc ->
        loc = PStr "stdout" \/ loc = PStr "stderr" ->
        item1 (with_location (t_not_expected tc)) = Ok loc' ->
        loc' <> PStr "stdout" -> loc' <> PStr "stderr" ->
        set_command_options (instantiate tc)
        = Skipped ("Location for not_expected is not stdout or stderr "
                   ++ t_caller tc)
        /\ run_test re_search out err sys tc
           = Skipped ("Location for not_expected is not stdout or stderr "
                      ++ t_caller tc))
  /\ (forall loc loc' : pyval,
        item1 (with_location (t_expected tc)) = Ok loc ->
        loc = PStr "stdout" \/ loc = PStr "stderr" ->
        item1 (with_location (t_not_expected tc)) = Ok loc' ->
        loc' = PStr "stdout" \/ loc' = PStr "stderr" ->
        set_command_options (instantiate tc)
        = Done (mkInst tc (Some (t_cmd tc))
                  (with_location (t_expected tc))
                  (with_location (t_not_expected tc))))
  /\ (forall p : string,
        deferred_search out err (with_location (PStr p))
        = Ok (Some (PStr p, out)))
  /\ (forall p : string,
        deferred_search out err (with_location (PList [PStr p; PStr "stdout"]))
        = Ok (Some (PStr p, out)))
  /\ (forall p : string,
        deferred_search out err (with_location (PList [PStr p; PStr "stderr"]))
        = Ok (Some (PStr p, err)))
  /\ (forall p : string,
        t_expected tc = PList [PStr p; PStr "stderr"] ->
        t_not_expected tc = PNone ->
        t_required_system tc = Some sys ->
        run_test re_search out err sys tc
        = if re_search p err then Done tt
          else SanityError ("Expected '" ++ p ++ "' running '"
                            ++ (t_cmd tc ++ " " ++ t_caller tc) ++ "'")).
Proof.
  split; [|split; [|split; [|split; [|split; [|split; [|split; [|split]]]]]]].
  - intros x H. destruct x as [|p|l|d]; try reflexivity.
    now contradiction (H l).
  - reflexivity.
  - intros loc L N1 N2.
    assert (E : set_command_options (instantiate tc)
                = Skipped ("Location for expected is not stdout or stderr "
                           ++ t_caller tc)).
    { unfold set_command_options. simpl. rewrite L.
      now rewrite (is_stream_false loc N1 N2). }
    split; [exact E|]. unfold run_test. now rewrite E.
  - intros loc loc' L S L' N1 N2.
    assert (E : set_command_options (instantiate tc)
                = Skipped ("Location for not_expected is not stdout or stderr "
                           ++ t_caller tc)).
    { unfold set_command_options. simpl. rewrite L, L'.
      rewrite (is_stream_true loc S).
      now rewrite (is_stream_false loc' N1 N2). }
    split; [exact E|]. unfold run_test. now rewrite E.
  - intros loc loc' L S L' S'.
    unfold set_command_options. simpl. rewrite L, L'.
    now rewrite (is_stream_true loc S), (is_stream_true loc' S').
  - reflexivity.
  - reflexivity.
  - reflexivity.
  - intros p He Hn Hs.
    unfold run_test, set_command_options, instantiate. simpl.
    rewrite He, Hn. simpl.
    unfold check_system. simpl. rewrite Hs, String.eqb_refl. simpl.
    unfold validate. simpl.
    destruct (re_search p err); reflexivity.
Qed.

Lemma C2_output_location_witness :
  set_command_options (instantiate (make_test 1 bad_location_call))
  = Skipped "Location for expected is not stdout or stderr [checks.py:30]"
  /\ run_test (fun p text => String.eqb p text) "ok" "" "santis"
       (make_test 1 bad_location_call)
     = Skipped "Location for expected is not stdout or stderr [checks.py:30]".
Proof.
  destruct (C2_output_location (fun p text => String.eqb p text)
              "ok" "" "santis" (make_test 1 bad_location_call))
    as (_ & _ & Skip & _).
  apply (Skip (PStr "syslog")); [reflexivity | discriminate | discriminate].
Defined.

(* ================================================================== *)
(** * Further properties of the site configurations *)
(* ================================================================== *)

(** ** When the loop goes through *)

Section Entries.

Variables (s : site) (name mount : string).

Lemma make_environ_ok (k : string) (v : pyval) :
  entry_ok s mount v = true ->
  exists env, make_environ s name mount k v = Ok env.
Proof.
  unfold entry_ok, activation_of, make_environ.
  destruct v as [|p|l|m]; try discriminate.
  destruct (dict_get "activation" m) as [a|]; try discriminate.
  destruct a as [|a|l|d]; try discriminate; simpl.
  - intros ->. simpl. eauto.
  - destruct s; try discriminate. simpl. eauto.
Qed.

Lemma make_environ_ok_inv (k : string) (v : pyval) (env : dict) :
  make_environ s name mount k v = Ok env -> entry_ok s mount v = true.
Proof.
  unfold entry_ok, activation_of, make_environ.
  destruct v as [|p|l|m]; try discriminate.
  destruct (dict_get "activation" m) as [a|]; try discriminate.
  destruct a as [|a|l|d]; destruct s; simpl; try discriminate; auto;
    destruct (startswith a mount); simpl; try discriminate; auto.
Qed.

Lemma environs_loop_ok (items : dict) :
  Forall (fun kv => entry_ok s mount (snd kv) = true) items ->
  forall acc, exists l,
    environs_loop s name mount items acc = Ok l
    /\ length l = length acc + length items.
Proof.
  induction 1 as [|[k v] items Hv HF IH]; intros acc; simpl.
  - exists acc. split; [reflexivity | lia].
  - destruct (make_environ_ok k v Hv) as (env & E). rewrite E. simpl.
    destruct (IH (acc ++ [env])%list) as (l & L & N). exists l.
    split; [exact L|]. rewrite N, List.length_app. simpl. lia.
Qed.

Lemma environs_loop_ok_inv (items : dict) :
  forall acc l,
    environs_loop s name mount items acc = Ok l ->
    Forall (fun kv => entry_ok s mount (snd kv) = true) items
    /\ length l = length acc + length items.
Proof.
  induction items as [|[k v] items IH]; simpl; intros acc l H.
  - injection H as <-. split; [constructor | lia].
  - destruct (make_environ s name mount k v) as [env|e] eqn:E;
      simpl in H; try discriminate.
    destruct (IH _ _ H) as [F N]. split.
    + constructor; [|exact F]. simpl. eapply make_environ_ok_inv; eauto.
    + rewrite N, List.length_app. simpl. lia.
Qed.

(** The first entry that fails ends the loop with its own exception. *)
Lemma environs_loop_first_failure (pre : dict) (k : string) (v : pyval)
    (post : dict) (e : exn) :
  Forall (fun kv => entry_ok s mount (snd kv) = true) pre ->
  make_environ s name mount k v = Raise e ->
  forall acc,
    environs_loop s name mount (pre ++ (k, v) :: post)%list acc = Raise e.
Proof.
  intros HF Hv. induction HF as [|[k0 v0] pre H0 HF IH]; intros acc; simpl.
  - now rewrite Hv.
  - destruct (make_environ_ok k0 v0 H0) as (env & E). rewrite E. simpl.
    apply IH.
Qed.

End Entries.

(** The module once the metadata is a mapping [d]: what is left is the
    loop and the test on [actual_environs]. *)
Lemma load_config_mapping (s : site) (w : World) (u : string) (d : dict) :
  environ w "UENV" = Some u ->
  (s = Santis -> u <> EmptyString) ->
  path_exists w (PurePath.to_str (image_path u)) = Found ->
  read_meta w (rfm_meta s w (image_path u) (image_name u)) = Loaded (PDict d) ->
  load_config s w =
    ([], configure s w (image_name u) (uenv_file u) (image_mount u) (PDict d)).
Proof.
  intros Hu Hne Hex Hrd.
  rewrite (load_config_loaded s w u (check_uenv_ok s w u Hu Hne) Hex).
  unfold load_metadata. rewrite Hrd. reflexivity.
Qed.

(** What a successful load tells about the host. *)
Lemma load_config_ok_inv (s : site) (w : World) (out : list string)
    (cfg : site_configuration) :
  load_config s w = (out, Ok cfg) ->
  exists u d,
    environ w "UENV" = Some u
    /\ (s = Santis -> u <> EmptyString)
    /\ path_exists w (PurePath.to_str (image_path u)) = Found
    /\ read_meta w (rfm_meta s w (image_path u) (image_name u))
       = Loaded (PDict d)
    /\ out = []
    /\ configure s w (image_name u) (uenv_file u) (image_mount u) (PDict d)
       = Ok cfg.
Proof.
  unfold load_config. intros H.
  destruct (environ w "UENV") as [u|] eqn:Hu;
    [|destruct s; discriminate].
  destruct (check_uenv s (Some u)) as [u'|e] eqn:C; [|discriminate].
  pose proof (check_uenv_some _ _ _ C). subst u'.
  assert (Hne : s = Santis -> u <> EmptyString).
  { intros -> ->. discriminate C. }
  destruct (path_exists w (PurePath.to_str (image_path u))) eqn:Hex;
    [|discriminate|discriminate].
  unfold load_metadata in H.
  destruct (read_meta w (rfm_meta s w (image_path u) (image_name u)))
    as [err| |v] eqn:R.
  - destruct s; simpl in H; discriminate.
  - discriminate.
  - injection H as <- H. simpl in H.
    destruct v as [|p|l|d]; try discriminate.
    exists u, d. repeat (split; [assumption || reflexivity|]). exact H.
Qed.

(** C9, as the code has it.  Only the first comma-separated pair of
    [UENV] is read: the image file is what stands before the first colon
    of that pair, and without a colon the mount point is
    [/user-environment].  Loading works with that file and that mount
    point: it is that file whose absence is reported, next to it that
    the metadata is read, that file and that mount point that the Slurm
    option carries, and that mount point that the activation scripts are
    held against.  Two values of [UENV] that get past the first test of
    the module and have the same first pair give the same result. *)
Theorem C9_first_pair_only (s : site) (w : World) (u : string) :
  (mem_char "," u = false -> uenv_first u = u)
  /\ (forall pair rest,
        mem_char "," pair = false -> u = pair ++ "," ++ rest ->
        uenv_first u = pair)
  /\ (mem_char ":" (uenv_first u) = false ->
      uenv_file u = uenv_first u /\ image_mount u = "/user-environment")
  /\ (forall file more : string,
        mem_char ":" file = false ->
        uenv_first u = file ++ ":" ++ more ->
        uenv_file u = file
        /\ image_mount u = hd EmptyString (split_on ":" more))
  /\ (environ w "UENV" = Some u ->
      (s = Santis -> u <> EmptyString) ->
      (path_exists w (PurePath.to_str (PurePath.parse (uenv_file u)))
       = NotFound ->
       load_config s w =
         ([], Raise (ConfigError
                ("uenv image: '"
                 ++ PurePath.to_str (PurePath.parse (uenv_file u))
                 ++ "' does not exist"))))
      /\ (forall out cfg,
            load_config s w = (out, Ok cfg) ->
            path_exists w (PurePath.to_str (PurePath.parse (uenv_file u)))
            = Found
            /\ map part_access (flat_map sys_partitions (systems cfg))
               = [ (match s with
                    | Santis => ["-pnormal"]
                    | Pilatus =>
                        ["-pnormal"; "-Cmc";
                         ("--account=" ++ osgroup w)%string]
                    end
                    ++ match s with
                       | Santis =>
                           [("--uenv=" ++ uenv_file u ++ ":"
                             ++ image_mount u)%string]
                       | Pilatus =>
                           [("--uenv-file=" ++ uenv_file u
                             ++ " --uenv-mount=" ++ image_mount u)%string]
                       end)%list ]
            /\ exists d,
                 read_meta w
                   (rfm_meta s w (PurePath.parse (uenv_file u))
                      (PurePath.stem (PurePath.parse (uenv_file u))))
                 = Loaded (PDict d)
                 /\ Forall (fun kv =>
                              entry_ok s (image_mount u) (snd kv) = true) d))
  /\ (forall u' : string,
        (s = Santis -> u <> EmptyString /\ u' <> EmptyString) ->
        uenv_first u = uenv_first u' ->
        load_config s (setenv "UENV" u w)
        = load_config s (setenv "UENV" u' w)).
Proof.
  split; [apply uenv_first_alone|].
  split; [intros pair rest Hc ->; now apply uenv_first_app|].
  split; [|split; [|split]].
  - intros Hn. unfold uenv_file, image_mount, parse_uenv.
    rewrite (split_on_no_sep ":" _ Hn). split; reflexivity.
  - intros file more Hn E. unfold uenv_file, image_mount, parse_uenv.
    rewrite E. simpl.
    change (String ":" more) with (String ":"%char more).
    rewrite (split_on_app ":" file more Hn). simpl.
    split; [reflexivity|]. destruct more; simpl; try reflexivity.
    destruct (Ascii.eqb a ":"); [reflexivity|].
    destruct (split_on ":" more); reflexivity.
  - intros Hu Hne. split.
    + intros Hex. unfold load_config.
      rewrite (check_uenv_ok s w u Hu Hne).
      fold (image_path u) in Hex. rewrite Hex. reflexivity.
    + intros out cfg L.
      destruct (load_config_ok_inv s w out cfg L)
        as (u0 & d & Hu0 & _ & Hex & Hrd & _ & Hc).
      rewrite Hu in Hu0. injection Hu0 as <-.
      split; [exact Hex|].
      unfold configure in Hc. simpl in Hc.
      destruct (environs_loop s (image_name u) (image_mount u) d [])
        as [l|e] eqn:E; simpl in Hc; [|discriminate].
      destruct (environs_loop_ok_inv _ _ _ _ _ _ E) as [F _].
      destruct d as [|kv d]; [discriminate|].
      injection Hc as <-. split; [destruct s; reflexivity|].
      exists (kv :: d). split; [exact Hrd | exact F].
  - intros u' Hne E. apply load_config_same_first; [exact E | |].
    + destruct s; [|reflexivity]. simpl.
      destruct (String.eqb_spec u EmptyString) as [Z|_]; [|reflexivity].
      now destruct (Hne eq_refl).
    + destruct s; [|reflexivity]. simpl.
      destruct (String.eqb_spec u' EmptyString) as [Z|_]; [|reflexivity].
      now destruct (Hne eq_refl).
Qed.

Lemma C9_first_pair_only_witness :
  uenv_first "/images/prgenv.squashfs:/user-tools,/other.sqfs:/x"
  = "/images/prgenv.squashfs:/user-tools"
  /\ uenv_file "/images/prgenv.squashfs:/user-tools,/other.sqfs:/x"
     = "/images/prgenv.squashfs"
  /\ image_mount "/images/prgenv.squashfs:/user-tools,/other.sqfs:/x"
     = "/user-tools"
  /\ uenv_file "/images/prgenv.squashfs" = "/images/prgenv.squashfs"
  /\ image_mount "/images/prgenv.squashfs" = "/user-environment"
  /\ load_config Santis
       (setenv "UENV" "/images/prgenv.squashfs:/user-tools,/other.sqfs:/x"
          host_two_pairs)
     = load_config Santis
         (setenv "UENV" "/images/prgenv.squashfs:/user-tools" host_two_pairs).
Proof.
  destruct (C9_first_pair_only Santis host_two_pairs
              "/images/prgenv.squashfs:/user-tools,/other.sqfs:/x")
    as (_ & First & _ & Colon & _ & Same).
  destruct (C9_first_pair_only Santis host_two_pairs "/images/prgenv.squashfs")
    as (_ & _ & Plain & _).
  split; [apply (First "/images/prgenv.squashfs:/user-tools" "/other.sqfs:/x");
          reflexivity|].
  destruct (Colon "/images/prgenv.squashfs" "/user-tools" eq_refl eq_refl)
    as [F M].
  split; [exact F|]. split; [exact M|].
  destruct (Plain eq_refl) as [F0 M0].
  split; [exact F0|]. split; [exact M0|].
  apply Same; [intros _; split; discriminate | reflexivity].
Defined.

(** C9 as stated fails on santis for an empty first pair.  The values
    [,/other.sqfs] and the empty string have the same first pair, the
    empty one; santis refuses the empty string, but it takes
    [,/other.sqfs], whose image path is then the working directory, and
    where a file [.yaml] is found there it produces a configuration: the
    pair after the comma has changed the result. *)
Lemma C9_santis_empty_first_pair_counterexample :
  uenv_first ",/other.sqfs" = EmptyString
  /\ uenv_first EmptyString = EmptyString
  /\ load_config Santis (setenv "UENV" EmptyString host_empty_uenv)
     = ([], Raise (ConfigError
         "Enviroment variable UENV is missing or empty. Set to location of user environment to load."))
  /\ (exists cfg,
        load_config Santis (setenv "UENV" ",/other.sqfs" host_empty_uenv)
        = ([], Ok cfg))
  /\ load_config Santis (setenv "UENV" ",/other.sqfs" host_empty_uenv)
     <> load_config Santis (setenv "UENV" EmptyString host_empty_uenv).
Proof.
  split; [reflexivity|]. split; [reflexivity|]. split; [reflexivity|].
  split; [eexists; reflexivity|]. discriminate.
Qed.

(** X1: loading produces a site configuration exactly when [UENV] is
    accepted, the image exists, the metadata is a mapping with at least
    one entry, and every entry is a mapping whose ['activation'] is a
    script under the mount point (or, on pilatus, a list of commands). *)
Theorem load_config_succeeds_iff (s : site) (w : World) :
  (exists cfg, snd (load_config s w) = Ok cfg)
  <->
  (exists u d,
     environ w "UENV" = Some u
     /\ (s = Santis -> u <> EmptyString)
     /\ path_exists w (PurePath.to_str (image_path u)) = Found
     /\ read_meta w (rfm_meta s w (image_path u) (image_name u))
        = Loaded (PDict d)
     /\ d <> []
     /\ Forall (fun kv => entry_ok s (image_mount u) (snd kv) = true) d).
Proof.
  split.
  - intros (cfg & H).
    destruct (load_config s w) as [out r] eqn:L. simpl in H. subst r.
    destruct (load_config_ok_inv s w out cfg L)
      as (u & d & Hu & Hne & Hex & Hrd & _ & Hc).
    exists u, d. repeat (split; [assumption|]).
    unfold configure in Hc. simpl in Hc.
    destruct (environs_loop s (image_name u) (image_mount u) d [])
      as [l|e] eqn:E; simpl in Hc; [|discriminate].
    destruct d as [|kv d]; [discriminate|]. split; [discriminate|].
    now destruct (environs_loop_ok_inv _ _ _ _ _ _ E).
  - intros (u & d & Hu & Hne & Hex & Hrd & Hd & HF).
    rewrite (load_config_mapping s w u d Hu Hne Hex Hrd). simpl.
    unfold configure. simpl.
    destruct (environs_loop_ok s (image_name u) (image_mount u) d HF [])
      as (l & E & _).
    rewrite E. simpl. destruct d as [|kv d]; [congruence|]. simpl. eauto.
Qed.

Lemma load_config_succeeds_iff_witness :
  exists cfg, snd (load_config Santis host_two_pairs) = Ok cfg.
Proof.
  apply (proj2 (load_config_succeeds_iff Santis host_two_pairs)).
  exists "/images/prgenv.squashfs:/user-environment,/other.sqfs:/x".
  eexists. split; [reflexivity|]. split; [discriminate|].
  split; [reflexivity|]. split; [reflexivity|]. split; [discriminate|].
  repeat constructor.
Defined.

(** X2: entries are handled in the order of the metadata and the first
    one that fails decides: loading ends with the exception of that entry,
    and what stands after it is never looked at. *)
Theorem first_failing_entry_decides
    (s : site) (w : World) (u : string)
    (pre : dict) (k : string) (v : pyval) (post : dict) (e : exn) :
  environ w "UENV" = Some u ->
  (s = Santis -> u <> EmptyString) ->
  path_exists w (PurePath.to_str (image_path u)) = Found ->
  read_meta w (rfm_meta s w (image_path u) (image_name u))
  = Loaded (PDict (pre ++ (k, v) :: post)%list) ->
  Forall (fun kv => entry_ok s (image_mount u) (snd kv) = true) pre ->
  make_environ s (image_name u) (image_mount u) k v = Raise e ->
  load_config s w = ([], Raise e).
Proof.
  intros Hu Hne Hex Hrd HF Hv.
  rewrite (load_config_mapping s w u _ Hu Hne Hex Hrd).
  unfold configure. simpl.
  now rewrite (environs_loop_first_failure s _ _ pre k v post e HF Hv []).
Qed.

Lemma first_failing_entry_decides_witness :
  load_config Pilatus host_missing_activation
  = ([], Raise (KeyError "activation")).
Proof.
  apply (first_failing_entry_decides Pilatus host_missing_activation
           "/images/prgenv.squashfs"
           [ ("default",
              PDict [ ("activation",
                       PStr "/user-environment/env/default/activate.sh") ]) ]
           "tools" (PDict [ ("cc", PStr "gcc") ])
           [ ("broken", PStr "x") ]).
  - reflexivity.
  - discriminate.
  - reflexivity.
  - reflexivity.
  - repeat constructor.
  - reflexivity.
Defined.

(** X3: an entry that is a mapping without an ['activation'] key, after
    entries that are in order, makes loading end with
    [KeyError('activation')] on both sites; no [ConfigError] is raised
    for it. *)
Theorem missing_activation_key
    (s : site) (w : World) (u : string)
    (pre : dict) (k : string) (m : dict) (post : dict) :
  environ w "UENV" = Some u ->
  (s = Santis -> u <> EmptyString) ->
  path_exists w (PurePath.to_str (image_path u)) = Found ->
  read_meta w (rfm_meta s w (image_path u) (image_name u))
  = Loaded (PDict (pre ++ (k, PDict m) :: post)%list) ->
  Forall (fun kv => entry_ok s (image_mount u) (snd kv) = true) pre ->
  dict_get "activation" m = None ->
  load_config s w = ([], Raise (KeyError "activation")).
Proof.
  intros Hu Hne Hex Hrd HF Hm.
  rewrite (load_config_mapping s w u _ Hu Hne Hex Hrd).
  unfold configure. simpl.
  rewrite (environs_loop_first_failure s _ _ pre k (PDict m) post
             (KeyError "activation") HF); [reflexivity|].
  unfold make_environ. now rewrite Hm.
Qed.

Lemma missing_activation_key_witness :
  load_config Santis host_missing_activation
  = ([], Raise (KeyError "activation")).
Proof.
  apply (missing_activation_key Santis host_missing_activation
           "/images/prgenv.squashfs"
           [ ("default",
              PDict [ ("activation",
                       PStr "/user-environment/env/default/activate.sh") ]) ]
           "tools" [ ("cc", PStr "gcc") ]
           [ ("broken", PStr "x") ]).
  - reflexivity.
  - discriminate.
  - reflexivity.
  - reflexivity.
  - repeat constructor.
  - reflexivity.
Defined.

(** X4: with no environment at all the name [actual_environs] is never
    bound, so loading ends with a [NameError] where the site
    configuration is built.  This is what happens when the metadata is
    the empty mapping and, on santis, whenever the metadata file cannot
    be opened: the warning is printed, then the [NameError] is raised. *)
Theorem no_environment_is_a_name_error
    (s : site) (w : World) (u : string) :
  environ w "UENV" = Some u ->
  (s = Santis -> u <> EmptyString) ->
  path_exists w (PurePath.to_str (image_path u)) = Found ->
  (read_meta w (rfm_meta s w (image_path u) (image_name u)) = Loaded (PDict [])
   -> load_config s w = ([], Raise (NameError "actual_environs")))
  /\ (forall err,
        s = Santis ->
        read_meta w (rfm_meta s w (image_path u) (image_name u)) = OSError err ->
        load_config s w =
          ([warn_no_meta w (image_name u)
              (rfm_meta s w (image_path u) (image_name u)) err],
           Raise (NameError "actual_environs"))).
Proof.
  intros Hu Hne Hex. split.
  - intros Hrd. now rewrite (load_config_mapping s w u [] Hu Hne Hex Hrd).
  - intros err -> Hrd.
    rewrite (load_config_loaded Santis w u
               (check_uenv_ok Santis w u Hu Hne) Hex).
    unfold load_metadata. rewrite Hrd. reflexivity.
Qed.

Lemma no_environment_is_a_name_error_witness :
  load_config Pilatus host_empty_metadata
  = ([], Raise (NameError "actual_environs")).
Proof.
  apply (no_environment_is_a_name_error Pilatus host_empty_metadata
           "/images/prgenv.squashfs");
    [reflexivity | discriminate | reflexivity | reflexivity].
Defined.

(** X5: metadata that is not a mapping (an empty file gives [None]; a
    top-level scalar or sequence) makes loading end with an
    [AttributeError] at [image_environments.keys()], on both sites. *)
Theorem metadata_must_be_a_mapping
    (s : site) (w : World) (u : string) (v : pyval) :
  environ w "UENV" = Some u ->
  (s = Santis -> u <> EmptyString) ->
  path_exists w (PurePath.to_str (image_path u)) = Found ->
  read_meta w (rfm_meta s w (image_path u) (image_name u)) = Loaded v ->
  (forall d, v <> PDict d) ->
  load_config s w = ([], Raise (AttributeError "keys")).
Proof.
  intros Hu Hne Hex Hrd Hv.
  rewrite (load_config_loaded s w u (check_uenv_ok s w u Hu Hne) Hex).
  unfold load_metadata. rewrite Hrd. simpl.
  destruct v as [|p|l|d]; try reflexivity. now contradiction (Hv d).
Qed.

Lemma metadata_must_be_a_mapping_witness :
  load_config Santis host_blank_metadata = ([], Raise (AttributeError "keys")).
Proof.
  apply (metadata_must_be_a_mapping Santis host_blank_metadata
           "/images/prgenv.squashfs" PNone);
    [reflexivity | discriminate | reflexivity | reflexivity | discriminate].
Defined.

(** X6: a configuration that loading produced has one system, named
    after the site, with one partition; the partition has as many
    environment names as there are environment records, one per entry
    of the metadata, and its access options end with the option that
    hands the image file and the mount point of the first pair of [UENV]
    to Slurm.  Nothing was printed on the way. *)
Theorem produced_configuration_shape
    (s : site) (w : World) (out : list string) (cfg : site_configuration) :
  load_config s w = (out, Ok cfg) ->
  exists u d p,
    environ w "UENV" = Some u
    /\ read_meta w (rfm_meta s w (image_path u) (image_name u))
       = Loaded (PDict d)
    /\ out = []
    /\ map sys_name (systems cfg) = [site_name s]
    /\ map sys_hostnames (systems cfg) = [[site_name s]]
    /\ flat_map sys_partitions (systems cfg) = [p]
    /\ length (part_environs p) = length d
    /\ length (environments cfg) = length d
    /\ part_access p =
         (match s with
          | Santis => ["-pnormal"]
          | Pilatus =>
              ["-pnormal"; "-Cmc"; ("--account=" ++ osgroup w)%string]
          end
          ++ match s with
             | Santis =>
                 [("--uenv=" ++ uenv_file u ++ ":" ++ image_mount u)%string]
             | Pilatus =>
                 [("--uenv-file=" ++ uenv_file u
                   ++ " --uenv-mount=" ++ image_mount u)%string]
             end)%list.
Proof.
  intros L.
  destruct (load_config_ok_inv s w out cfg L)
    as (u & d & Hu & Hne & Hex & Hrd & Ho & Hc).
  unfold configure in Hc. simpl in Hc.
  destruct (environs_loop s (image_name u) (image_mount u) d [])
    as [l|e] eqn:E; simpl in Hc; [|discriminate].
  destruct (environs_loop_ok_inv _ _ _ _ _ _ E) as [_ N].
  destruct d as [|kv d]; [discriminate|].
  injection Hc as <-.
  exists u, (kv :: d).
  destruct s; eexists; (repeat (split; [eassumption || reflexivity|]));
    simpl; rewrite ?length_map; auto.
Qed.

Lemma produced_configuration_shape_witness :
  exists cfg p,
    load_config Santis host_two_pairs = ([], Ok cfg)
    /\ flat_map sys_partitions (systems cfg) = [p]
    /\ length (part_environs p) = 2
    /\ length (environments cfg) = 2
    /\ part_access p
       = ["-pnormal"; "--uenv=/images/prgenv.squashfs:/user-environment"].
Proof.
  eexists.
  destruct (produced_configuration_shape Santis host_two_pairs [] _ eq_refl)
    as (u & d & p & Hu & Hrd & _ & _ & _ & Hp & He & Hn & Ha).
  exists p. injection Hu as <-. vm_compute in Hrd. injection Hrd as <-.
  split; [reflexivity|]. split; [exact Hp|]. split; [exact He|].
  split; [exact Hn | exact Ha].
Defined.

(** ** The environment records *)

Lemma dict_get_set_other (k k' : string) (v : pyval) (d : dict) :
  String.eqb k k' = false ->
  dict_get k (dict_set k' v d) = dict_get k d.
Proof.
  intros N. induction d as [|[k0 v0] d IH]; simpl.
  - now rewrite N.
  - destruct (String.eqb k' k0) eqn:E; simpl.
    + apply String.eqb_eq in E. subst k0. now rewrite N.
    + now rewrite IH.
Qed.

Lemma dict_get_None (k : string) (d : dict) :
  dict_get k d = None <-> ~ In k (map fst d).
Proof.
  induction d as [|[k0 v0] d IH]; simpl; [tauto|].
  destruct (String.eqb_spec k k0) as [->|N].
  - split; [discriminate | intros H; exfalso; auto].
  - rewrite IH. split; [intros H [E|I]; auto; congruence | tauto].
Qed.

Lemma keys_dict_set (k : string) (v : pyval) (d : dict) (x : string) :
  In x (map fst (dict_set k v d)) <-> x = k \/ In x (map fst d).
Proof.
  induction d as [|[k0 v0] d IH]; simpl.
  - intuition auto.
  - destruct (String.eqb_spec k k0) as [->|N]; simpl.
    + intuition auto.
    + rewrite IH. intuition auto.
Qed.

Lemma NoDup_dict_set (k : string) (v : pyval) (d : dict) :
  NoDup (map fst d) -> NoDup (map fst (dict_set k v d)).
Proof.
  induction d as [|[k0 v0] d IH]; simpl; intros H.
  - repeat constructor. simpl. tauto.
  - inversion H as [|a l Hn Hd]. subst.
    destruct (String.eqb_spec k k0) as [->|N]; simpl.
    + now constructor.
    + constructor; [|auto]. rewrite keys_dict_set. intros [E|I]; auto.
Qed.

Lemma NoDup_dict_update (m d : dict) :
  NoDup (map fst d) -> NoDup (map fst (dict_update d m)).
Proof.
  revert d. unfold dict_update.
  induction m as [|[k v] m IH]; simpl; intros d H; [exact H|].
  apply IH. now apply NoDup_dict_set.
Qed.

Lemma keys_dict_del (k : string) (d : dict) (x : string) :
  In x (map fst (dict_del k d)) -> In x (map fst d).
Proof.
  induction d as [|[k0 v0] d IH]; simpl; [tauto|].
  destruct (String.eqb k k0); simpl; intuition auto.
Qed.

Lemma NoDup_dict_del (k : string) (d : dict) :
  NoDup (map fst d) ->
  NoDup (map fst (dict_del k d)) /\ ~ In k (map fst (dict_del k d)).
Proof.
  induction d as [|[k0 v0] d IH]; simpl; intros H.
  - split; [constructor | tauto].
  - inversion H as [|a l Hn Hd]. subst.
    destruct (String.eqb_spec k k0) as [->|N]; simpl.
    + split; assumption.
    + destruct (IH Hd) as [I1 I2]. split.
      * constructor; [|exact I1]. intros I. apply Hn.
        eapply keys_dict_del; eauto.
      * intros [E|I]; auto.
Qed.

(** [d.update(m)]: the keys of [m] win, the others stay. *)
Lemma dict_get_update (x : string) (m : dict) :
  NoDup (map fst m) ->
  forall d,
    dict_get x (dict_update d m)
    = match dict_get x m with Some v => Some v | None => dict_get x d end.
Proof.
  unfold dict_update.
  induction m as [|[k v] m IH]; simpl; intros H d; [reflexivity|].
  inversion H as [|a l Hn Hd]. subst. rewrite (IH Hd).
  destruct (String.eqb_spec x k) as [->|N].
  - apply dict_get_None in Hn. rewrite Hn. apply dict_get_set_same.
  - rewrite dict_get_set_other by (now apply String.eqb_neq). reflexivity.
Qed.

(** X7: an environment record has no duplicate key and no
    ['activation'] key any more; what was under ['activation'] is now
    under ['prepare_cmds'], as the one command [source <script>] for a
    script (which starts with the mount point) and as it stands for a
    list of commands. *)
Theorem environment_record_invariants
    (s : site) (name mount k : string) (v : pyval) (env : dict) :
  make_environ s name mount k v = Ok env ->
  exists m a,
    v = PDict m
    /\ dict_get "activation" m = Some a
    /\ NoDup (map fst env)
    /\ dict_get "activation" env = None
    /\ dict_get "prepare_cmds" env
       = Some (match a with
               | PStr script => PList [PStr ("source " ++ script)]
               | commands => commands
               end)
    /\ (forall script, a = PStr script -> startswith script mount = true)
    /\ ((forall script, a <> PStr script) ->
        s = Pilatus /\ exists l, a = PList l).
Proof.
  unfold make_environ.
  destruct v as [|p|l|m]; try discriminate.
  destruct (dict_get "activation" m) as [a|] eqn:A; try discriminate.
  destruct (prepare_cmds s mount k a) as [c|e] eqn:P; simpl; try discriminate.
  intros H. injection H as <-. exists m, a.
  set (env0 := dict_update [("target_systems", PList [PStr (site_name s)])] m).
  assert (N0 : NoDup (map fst env0)).
  { apply NoDup_dict_update. repeat constructor. simpl. tauto. }
  pose proof (NoDup_dict_set "name" (PStr (name ++ "_" ++ k)) _
                (NoDup_dict_set "prepare_cmds" c _ N0)) as N1.
  destruct (NoDup_dict_del "activation" _ N1) as [N2 N3].
  split; [reflexivity|]. split; [exact A|]. split; [exact N2|].
  split; [now apply dict_get_None|].
  assert (C : c = match a with
                  | PStr script => PList [PStr ("source " ++ script)]
                  | commands => commands
                  end
              /\ (forall script, a = PStr script -> startswith script mount = true)
              /\ ((forall script, a <> PStr script) ->
                  s = Pilatus /\ exists l, a = PList l)).
  { unfold prepare_cmds in P.
    destruct a as [|x|l|d]; destruct s; try discriminate.
    - destruct (startswith x mount) eqn:S; [|discriminate].
      injection P as <-. split; [reflexivity|]. split.
      + intros ? E. injection E as <-. exact S.
      + intros H. now contradiction (H x).
    - destruct (startswith x mount) eqn:S; [|discriminate].
      injection P as <-. split; [reflexivity|]. split.
      + intros ? E. injection E as <-. exact S.
      + intros H. now contradiction (H x).
    - injection P as <-. split; [reflexivity|]. split; [discriminate|].
      intros _. eauto. }
  destruct C as (-> & C2 & C3). split; [|split; assumption].
  rewrite dict_get_del_other by reflexivity.
  rewrite dict_get_set_other by reflexivity.
  apply dict_get_set_same.
Qed.

Lemma environment_record_invariants_witness :
  exists env,
    make_environ Santis "prgenv" "/user-environment" "default" (PDict rich_entry)
    = Ok env
    /\ dict_get "activation" env = None
    /\ dict_get "prepare_cmds" env
       = Some (PList [PStr "source /user-environment/env/default/activate.sh"]).
Proof.
  eexists. split; [reflexivity|].
  destruct (environment_record_invariants Santis "prgenv" "/user-environment"
              "default" (PDict rich_entry) _ eq_refl)
    as (m & a & Em & Ea & _ & Hn & Hp & _).
  injection Em as <-. vm_compute in Ea. injection Ea as <-.
  split; [exact Hn | exact Hp].
Defined.

(** X8: what an entry brings besides its activation goes into the record
    as it is.  ['target_systems'] is the site unless the entry sets it;
    a ['name'] of the entry itself is replaced by [{image}_{key}]. *)
Theorem environment_record_carries_entry
    (s : site) (name mount k : string) (m env : dict) :
  NoDup (map fst m) ->
  make_environ s name mount k (PDict m) = Ok env ->
  (forall x,
     x <> "activation" -> x <> "name" -> x <> "prepare_cmds" ->
     x <> "target_systems" ->
     dict_get x env = dict_get x m)
  /\ dict_get "target_systems" env
     = Some (match dict_get "target_systems" m with
             | Some systems => systems
             | None => PList [PStr (site_name s)]
             end)
  /\ dict_get "name" env = Some (PStr (name ++ "_" ++ k)).
Proof.
  intros Hm H. split; [|split].
  - intros x N1 N2 N3 N4.
    unfold make_environ in H.
    destruct (dict_get "activation" m) as [a|]; try discriminate.
    destruct (prepare_cmds s mount k a) as [c|e]; simpl in H; try discriminate.
    injection H as <-.
    apply String.eqb_neq in N1, N2, N3, N4.
    rewrite dict_get_del_other by exact N1.
    rewrite dict_get_set_other by exact N2.
    rewrite dict_get_set_other by exact N3.
    rewrite (dict_get_update x m Hm). simpl. rewrite N4.
    now destruct (dict_get x m).
  - unfold make_environ in H.
    destruct (dict_get "activation" m) as [a|]; try discriminate.
    destruct (prepare_cmds s mount k a) as [c|e]; simpl in H; try discriminate.
    injection H as <-.
    rewrite dict_get_del_other by reflexivity.
    rewrite dict_get_set_other by reflexivity.
    rewrite dict_get_set_other by reflexivity.
    rewrite (dict_get_update "target_systems" m Hm). simpl.
    now destruct (dict_get "target_systems" m).
  - eapply make_environ_name; eauto.
Qed.

Lemma environment_record_carries_entry_witness :
  exists env,
    make_environ Pilatus "prgenv" "/user-environment" "default" (PDict rich_entry)
    = Ok env
    /\ dict_get "cc" env = Some (PStr "gcc")
    /\ dict_get "target_systems" env = Some (PList [PStr "daint"])
    /\ dict_get "name" env = Some (PStr "prgenv_default").
Proof.
  eexists. split; [reflexivity|].
  assert (N : NoDup (map fst rich_entry)).
  { repeat constructor; not_among. }
  destruct (environment_record_carries_entry Pilatus "prgenv"
              "/user-environment" "default" rich_entry _ N eq_refl)
    as (Other & Systems & Name).
  split; [|split; [exact Systems | exact Name]].
  apply (Other "cc"); discriminate.
Defined.

(** ** Which metadata file is read *)

(** X9: [UENV_REFRAME_META] matters on santis only.  pilatus loads the
    same thing whatever the variable holds; santis takes an empty value
    as no value, and otherwise opens exactly the file the variable names
    in place of the one next to the image. *)
Theorem metadata_file_choice (w : World) (meta : string) :
  load_config Pilatus (setenv "UENV_REFRAME_META" meta w)
  = load_config Pilatus w
  /\ load_config Santis (setenv "UENV_REFRAME_META" EmptyString w)
     = load_config Santis (unsetenv "UENV_REFRAME_META" w)
  /\ (forall u,
        environ w "UENV" = Some u ->
        u <> EmptyString ->
        path_exists w (PurePath.to_str (image_path u)) = Found ->
        meta <> EmptyString ->
        load_config Santis (setenv "UENV_REFRAME_META" meta w)
        = match read_meta w meta with
          | Loaded v =>
              ([], configure Santis w (image_name u) (uenv_file u)
                     (image_mount u) v)
          | BadYAML => ([], Raise YAMLError)
          | OSError err =>
              ([warn_no_meta w (image_name u) meta err],
               Raise (NameError "actual_environs"))
          end).
Proof.
  split; [|split].
  - unfold load_config. simpl environ.
    destruct (check_uenv Pilatus (environ w "UENV")) as [u|e]; [|reflexivity].
    simpl path_exists.
    destruct (path_exists w (PurePath.to_str (image_path u))); reflexivity.
  - unfold load_config. simpl environ.
    destruct (check_uenv Santis (environ w "UENV")) as [u|e]; [|reflexivity].
    simpl path_exists.
    destruct (path_exists w (PurePath.to_str (image_path u))); reflexivity.
  - intros u Hu Hne Hex Hm.
    set (w' := setenv "UENV_REFRAME_META" meta w).
    assert (E1 : environ w' "UENV_REFRAME_META" = Some meta) by reflexivity.
    assert (E2 : environ w' "UENV" = Some u) by exact Hu.
    rewrite (load_config_loaded Santis w' u
               (check_uenv_ok Santis w' u E2 (fun _ => Hne)) Hex).
    unfold load_metadata, rfm_meta. rewrite E1.
    destruct (String.eqb_spec meta EmptyString) as [E|_]; [contradiction|].
    change (read_meta w' meta) with (read_meta w meta).
    destruct (read_meta w meta); reflexivity.
Qed.

Lemma metadata_file_choice_witness :
  is_config_error (snd (load_config Santis host_meta_apart)) = false
  /\ fst (load_config Santis host_meta_apart) <> []
  /\ fst (load_config Santis
            (setenv "UENV_REFRAME_META" "/meta/prgenv.yaml" host_meta_apart))
     = []
  /\ exists cfg,
       snd (load_config Santis
              (setenv "UENV_REFRAME_META" "/meta/prgenv.yaml" host_meta_apart))
       = Ok cfg.
Proof.
  split; [reflexivity|]. split; [discriminate|].
  destruct (metadata_file_choice host_meta_apart "/meta/prgenv.yaml")
    as (_ & _ & Named).
  rewrite (Named "/images/prgenv.squashfs" eq_refl);
    [|discriminate | reflexivity | discriminate].
  split; [reflexivity | eexists; reflexivity].
Defined.

(** ** The image file and the mount point *)

Lemma string_app_assoc (a b c : string) : (a ++ b) ++ c = a ++ b ++ c.
Proof. induction a as [|x a IH]; simpl; [reflexivity | now rewrite IH]. Qed.

Lemma mem_char_app (c : ascii) (a b : string) :
  mem_char c (a ++ b) = mem_char c a || mem_char c b.
Proof.
  induction a as [|d a IH]; simpl; [reflexivity|].
  now rewrite IH, orb_assoc.
Qed.

(** The pieces of a split hold no separator, and no character that the
    string did not hold. *)
Lemma split_on_pieces (c d : ascii) (s : string) :
  (c = d \/ mem_char d s = false) ->
  Forall (fun x => mem_char d x = false) (split_on c s).
Proof.
  induction s as [|a s IH]; simpl; intros H.
  - repeat constructor.
  - assert (H' : c = d \/ mem_char d s = false).
    { destruct H as [H|H]; [now left | right].
      apply orb_false_iff in H. tauto. }
    specialize (IH H').
    destruct (Ascii.eqb a c) eqn:E.
    + constructor; [reflexivity | exact IH].
    + assert (Ha : Ascii.eqb d a = false).
      { destruct H as [<-|H]; [now rewrite Ascii.eqb_sym|].
        apply orb_false_iff in H. tauto. }
      destruct (split_on c s) as [|h t].
      * repeat constructor. simpl. now rewrite Ha.
      * inversion IH as [|x l Hh Ht]. subst.
        constructor; [|exact Ht]. simpl. now rewrite Ha, Hh.
Qed.

Lemma hd_pieces (P : string -> Prop) (l : list string) :
  P EmptyString -> Forall P l -> P (hd EmptyString l).
Proof. intros H0 H. destruct H; simpl; auto. Qed.

(** X10: whatever [UENV] holds, neither the image file nor the mount
    point taken from it contains a comma or a colon: the option handed to
    Slurm has exactly the separators the configuration writes itself. *)
Theorem no_separator_survives (u : string) :
  mem_char "," (uenv_file u) = false
  /\ mem_char ":" (uenv_file u) = false
  /\ mem_char "," (image_mount u) = false
  /\ mem_char ":" (image_mount u) = false.
Proof.
  assert (F1 : mem_char "," (uenv_first u) = false).
  { unfold uenv_first.
    apply (hd_pieces (fun x => mem_char "," x = false)); [reflexivity|].
    apply split_on_pieces. now left. }
  pose proof (split_on_pieces ":" "," (uenv_first u) (or_intror F1)) as Pc.
  pose proof (split_on_pieces ":" ":" (uenv_first u) (or_introl eq_refl)) as Pk.
  unfold uenv_file, image_mount, parse_uenv.
  destruct (split_on ":" (uenv_first u)) as [|f r]; simpl.
  - repeat split.
  - inversion Pc as [|x l Pc1 Pc2]. inversion Pk as [|x' l' Pk1 Pk2]. subst.
    split; [exact Pc1|]. split; [exact Pk1|].
    destruct r as [|m r]; simpl; [split; reflexivity|].
    inversion Pc2. inversion Pk2. subst. split; assumption.
Qed.

(** X11: a pair written as [file:mount] is read back as it was written,
    with or without further pairs after a comma, and a third field after
    a second colon is dropped.  On santis the Slurm option is then
    [--uenv=] followed by the pair itself. *)
Theorem pair_round_trip (file mount : string) :
  mem_char "," file = false -> mem_char ":" file = false ->
  mem_char "," mount = false -> mem_char ":" mount = false ->
  parse_uenv (file ++ ":" ++ mount) = (file, mount)
  /\ (forall rest,
        parse_uenv (file ++ ":" ++ mount ++ "," ++ rest) = (file, mount))
  /\ (forall extra,
        mem_char "," extra = false ->
        parse_uenv (file ++ ":" ++ mount ++ ":" ++ extra) = (file, mount))
  /\ uenv_access Santis (uenv_file (file ++ ":" ++ mount))
       (image_mount (file ++ ":" ++ mount))
     = ["--uenv=" ++ file ++ ":" ++ mount].
Proof.
  intros Fc Fk Mc Mk.
  assert (Pc : mem_char "," (file ++ ":" ++ mount) = false).
  { rewrite mem_char_app. simpl. now rewrite Fc, Mc. }
  assert (R : forall first,
            uenv_first first = file ++ ":" ++ mount ->
            parse_uenv first = (file, mount)).
  { intros first E. unfold parse_uenv. rewrite E. simpl.
    change (String ":" mount) with (String ":"%char mount).
    rewrite (split_on_app ":" file mount Fk).
    now rewrite (split_on_no_sep ":" mount Mk). }
  assert (R0 : parse_uenv (file ++ ":" ++ mount) = (file, mount))
    by (apply R; now apply uenv_first_alone).
  split; [exact R0|]. split; [|split].
  - intros rest. apply R.
    replace (file ++ ":" ++ mount ++ "," ++ rest)
      with ((file ++ ":" ++ mount) ++ "," ++ rest).
    + now apply uenv_first_app.
    + rewrite string_app_assoc. reflexivity.
  - intros extra Ec. unfold parse_uenv.
    rewrite uenv_first_alone.
    + simpl. change (String ":" (mount ++ String ":" extra))
        with (String ":"%char (mount ++ String ":"%char extra)).
      rewrite (split_on_app ":" file _ Fk).
      now rewrite (split_on_app ":" mount extra Mk).
    + rewrite mem_char_app. simpl. rewrite mem_char_app. simpl.
      now rewrite Fc, Mc, Ec.
  - unfold uenv_file, image_mount. now rewrite R0.
Qed.

Lemma pair_round_trip_witness :
  parse_uenv ("/images/prgenv.squashfs" ++ ":" ++ "/user-tools")
  = ("/images/prgenv.squashfs", "/user-tools").
Proof.
  apply (pair_round_trip "/images/prgenv.squashfs" "/user-tools");
    reflexivity.
Defined.

(** ** The metadata file next to the image *)

Lemma no_slash_first (x : string) :
  mem_char "/" x = false -> PurePath.splitroot x = (EmptyString, x).
Proof.
  destruct x as [|c x]; [reflexivity|]. simpl. intros H.
  apply orb_false_iff in H. destruct H as [H _].
  destruct c as [[] [] [] [] [] [] [] []]; try reflexivity; discriminate H.
Qed.

Lemma splitroot_root (r rel : string) :
  r = EmptyString \/ r = "/" \/ r = "//" ->
  rel <> EmptyString ->
  Py.startswith rel "/" = false ->
  PurePath.splitroot (r ++ rel) = (r, rel).
Proof.
  intros Hr Hne Hs.
  destruct rel as [|c rel]; [congruence|].
  assert (Hc : Ascii.eqb c "/" = false).
  { unfold Py.startswith in Hs. simpl in Hs.
    destruct (Ascii.eqb_spec c "/") as [->|]; [|reflexivity].
    simpl in Hs. destruct rel; discriminate Hs. }
  destruct Hr as [->|[->| ->]]; simpl;
    destruct c as [[] [] [] [] [] [] [] []]; try reflexivity; discriminate Hc.
Qed.

Lemma split_join (c : ascii) (parts : list string) :
  parts <> [] ->
  Forall (fun x => mem_char c x = false) parts ->
  split_on c (join (str1 c) parts) = parts.
Proof.
  induction parts as [|x [|y t] IH]; intros Hne HF.
  - congruence.
  - simpl. inversion HF. subst. now apply split_on_no_sep.
  - inversion HF as [|a l Hx Ht]. subst.
    change (join (str1 c) (x :: y :: t))
      with (x ++ String c (join (str1 c) (y :: t))).
    rewrite (split_on_app c x _ Hx). f_equal. apply IH; [discriminate|exact Ht].
Qed.

Lemma filter_plain (parts : list string) :
  Forall plain_part parts -> filter PurePath.keep_part parts = parts.
Proof.
  induction 1 as [|x l (H1 & H2 & _) HF IH]; [reflexivity|].
  cbn [filter]. rewrite IH.
  assert (K : PurePath.keep_part x = true).
  { unfold PurePath.keep_part.
    destruct (String.eqb_spec x EmptyString); [contradiction|].
    destruct (String.eqb_spec x "."); [contradiction | reflexivity]. }
  now rewrite K.
Qed.

Lemma plain_no_leading_slash (x rest : string) :
  plain_part x -> Py.startswith (x ++ rest) "/" = false.
Proof.
  intros (H1 & _ & H3). destruct x as [|c x]; [congruence|].
  simpl in H3. apply orb_false_iff in H3. destruct H3 as [H3 _].
  unfold Py.startswith. cbn [String.prefix append].
  destruct (ascii_dec "/" c) as [<-|]; [discriminate H3 | reflexivity].
Qed.

Lemma string_app_nil_r (a : string) : a ++ EmptyString = a.
Proof. induction a as [|c a IH]; simpl; [reflexivity | now rewrite IH]. Qed.

Lemma join_head (sep : string) (x : string) (t : list string) :
  exists rest, join sep (x :: t) = x ++ rest.
Proof.
  destruct t as [|y t].
  - exists EmptyString. simpl. now rewrite string_app_nil_r.
  - exists (sep ++ join sep (y :: t)). reflexivity.
Qed.

(** A root and plain components are read back as they are. *)
Lemma parse_format (r : string) (parts : list string) :
  r = EmptyString \/ r = "/" \/ r = "//" ->
  parts <> [] ->
  Forall plain_part parts ->
  PurePath.parse (r ++ join "/" parts) = PurePath.mk r parts.
Proof.
  intros Hr Hne HF. unfold PurePath.parse.
  destruct parts as [|x t]; [congruence|].
  destruct (join_head "/" x t) as (rest & J).
  rewrite splitroot_root; auto.
  - f_equal. change "/" with (str1 "/") at 1.
    rewrite split_join; [now apply filter_plain | discriminate |].
    eapply Forall_impl; [|exact HF]. now intros a (_ & _ & H).
  - rewrite J. inversion HF as [|a l (H1 & _) _]. subst.
    destruct x; [congruence | discriminate].
  - rewrite J. apply plain_no_leading_slash. now inversion HF.
Qed.

Lemma join_snoc (sep : string) (l : list string) (x : string) :
  l <> [] -> join sep (l ++ [x]) = join sep l ++ sep ++ x.
Proof.
  induction l as [|a [|b t] IH]; intros H.
  - congruence.
  - reflexivity.
  - change (join sep ((a :: b :: t) ++ [x]))
      with (a ++ sep ++ join sep ((b :: t) ++ [x])).
    rewrite IH by discriminate.
    change (join sep (a :: b :: t)) with (a ++ sep ++ join sep (b :: t)).
    now rewrite !string_app_assoc.
Qed.

Lemma last_char_app (a b : string) (d : ascii) :
  b <> EmptyString ->
  last (list_ascii_of_string (a ++ b)) d = last (list_ascii_of_string b) d.
Proof.
  intros Hb. induction a as [|c a IH]; simpl; [reflexivity|].
  rewrite IH. destruct (list_ascii_of_string (a ++ b)) eqn:E; [|reflexivity].
  exfalso. apply Hb. destruct a; simpl in E; [|discriminate].
  destruct b; [reflexivity | discriminate].
Qed.

Lemma last_char_absent (c d : ascii) (x : string) :
  x <> EmptyString -> mem_char c x = false ->
  Ascii.eqb (last (list_ascii_of_string x) d) c = false.
Proof.
  induction x as [|a x IH]; intros Hne H; [congruence|].
  simpl in H. apply orb_false_iff in H. destruct H as [Ha Hx].
  simpl. destruct x as [|b x].
  - simpl. now rewrite Ascii.eqb_sym.
  - apply IH; [discriminate | exact Hx].
Qed.

Lemma join_plain_last (parts : list string) (d : ascii) :
  parts <> [] -> Forall plain_part parts ->
  join "/" parts <> EmptyString
  /\ Ascii.eqb (last (list_ascii_of_string (join "/" parts)) d) "/" = false.
Proof.
  induction parts as [|x [|y t] IH]; intros Hne HF.
  - congruence.
  - inversion HF as [|a l (H1 & _ & H3) _]. subst. simpl.
    split; [exact H1 | now apply last_char_absent].
  - inversion HF as [|a l Hx Ht]. subst.
    destruct (IH ltac:(discriminate) Ht) as [N L].
    change (join "/" (x :: y :: t)) with (x ++ "/" ++ join "/" (y :: t)).
    split.
    + destruct x; simpl; discriminate.
    + rewrite last_char_app by (simpl; discriminate).
      rewrite last_char_app by exact N. exact L.
Qed.

(** [p / seg] for a plain segment adds the segment as last component. *)
Lemma joinpath_plain (p : PurePath.t) (seg : string) :
  normal_path p -> plain_part seg ->
  PurePath.joinpath p seg
  = PurePath.mk (PurePath.root p) (PurePath.tail p ++ [seg]).
Proof.
  intros (Hr & HF) Hs. destruct p as [r parts]. simpl in *.
  unfold PurePath.joinpath, PurePath.format. simpl.
  assert (E : PurePath.posix_join (r ++ join "/" parts) seg
              = r ++ join "/" (parts ++ [seg])).
  { unfold PurePath.posix_join.
    pose proof (plain_no_leading_slash seg EmptyString Hs) as Q.
    rewrite string_app_nil_r in Q. rewrite Q.
    destruct parts as [|x t].
    - simpl. destruct Hr as [->|[->| ->]]; reflexivity.
    - destruct (join_plain_last (x :: t) " "%char ltac:(discriminate) HF)
        as [N L].
      assert (Z : String.eqb (r ++ join "/" (x :: t)) EmptyString = false).
      { apply String.eqb_neq. intros E. apply N.
        destruct r; simpl in E; [exact E | discriminate E]. }
      rewrite Z, last_char_app by exact N. rewrite L.
      rewrite join_snoc by discriminate.
      now rewrite !string_app_assoc. }
  rewrite E. apply parse_format; [exact Hr | |].
  - destruct parts; discriminate.
  - apply Forall_app. split; [exact HF | now constructor].
Qed.

Lemma splitroot_roots (s : string) :
  fst (PurePath.splitroot s) = EmptyString
  \/ fst (PurePath.splitroot s) = "/"
  \/ fst (PurePath.splitroot s) = "//".
Proof.
  destruct s as [|a s]; [now left|].
  destruct a as [[] [] [] [] [] [] [] []]; try (now left).
  destruct s as [|b s]; [now (right; left)|].
  destruct b as [[] [] [] [] [] [] [] []]; try (now (right; left)).
  destruct s as [|c s]; [now (right; right)|].
  destruct c as [[] [] [] [] [] [] [] []]; try (now (right; right)).
  now (right; left).
Qed.

(** Every parsed path is in normal form. *)
Lemma parse_normal (s : string) : normal_path (PurePath.parse s).
Proof.
  unfold PurePath.parse. pose proof (splitroot_roots s) as R.
  destruct (PurePath.splitroot s) as [r rel]. simpl in R.
  split; [exact R|]. simpl.
  pose proof (split_on_pieces "/" "/" rel (or_introl eq_refl)) as P.
  rewrite Forall_forall in *. intros x I. apply filter_In in I.
  destruct I as [I K]. unfold PurePath.keep_part in K.
  apply andb_true_iff in K. destruct K as [K1 K2].
  apply negb_true_iff in K1, K2. apply String.eqb_neq in K1, K2.
  repeat split; auto.
Qed.

Lemma parent_eq (p : PurePath.t) :
  PurePath.parent p
  = PurePath.mk (PurePath.root p) (removelast (PurePath.tail p)).
Proof. destruct p as [r [|x t]]; reflexivity. Qed.

Lemma parent_normal (p : PurePath.t) :
  normal_path p -> normal_path (PurePath.parent p).
Proof.
  intros (Hr & HF). rewrite parent_eq. split; [exact Hr|]. simpl.
  rewrite Forall_forall in *. intros x I. apply HF.
  clear - I. induction (PurePath.tail p) as [|a [|b t] IH]; simpl in *;
    [contradiction | contradiction |].
  destruct I as [<-|I]; [now left | right; auto].
Qed.

Lemma substring_absent (c : ascii) (n : string) :
  mem_char c n = false ->
  forall i, mem_char c (String.substring 0 i n) = false.
Proof.
  induction n as [|a n IH]; intros H i.
  - destruct i; reflexivity.
  - simpl in H. apply orb_false_iff in H. destruct H as [Ha Hn].
    destruct i as [|i]; [reflexivity|]. simpl. now rewrite Ha, IH.
Qed.

Lemma stem_no_slash (p : PurePath.t) :
  normal_path p -> mem_char "/" (PurePath.stem p) = false.
Proof.
  intros (_ & HF).
  assert (N : mem_char "/" (PurePath.name p) = false).
  { unfold PurePath.name.
    induction HF as [|x [|y t] (_ & _ & Hx) HF IH]; simpl; auto. }
  unfold PurePath.stem.
  destruct (PurePath.rfind_dot (PurePath.name p)) as [i|]; [|exact N].
  destruct ((0 <? i) && (i <? String.length (PurePath.name p) - 1))%nat;
    [|exact N].
  now apply substring_absent.
Qed.

Lemma yaml_segment_plain (stem : string) :
  mem_char "/" stem = false -> plain_part (stem ++ ".yaml").
Proof.
  intros H. repeat split.
  - intros E. apply (f_equal String.length) in E.
    rewrite length_app in E. simpl in E. lia.
  - intros E. apply (f_equal String.length) in E.
    rewrite length_app in E. simpl in E. lia.
  - rewrite mem_char_app, H. reflexivity.
Qed.

(** X12: without [UENV_REFRAME_META], the metadata file is looked for in
    the directory of the image, under the name of the image with its
    last suffix replaced by [.yaml]; this is the file pilatus always
    opens. *)
Theorem metadata_next_to_image (u : string) :
  PurePath.joinpath (PurePath.parent (image_path u)) (image_name u ++ ".yaml")
  = PurePath.mk (PurePath.root (image_path u))
      (removelast (PurePath.tail (image_path u)) ++ [image_name u ++ ".yaml"])
  /\ PurePath.parent
       (PurePath.joinpath (PurePath.parent (image_path u))
          (image_name u ++ ".yaml"))
     = PurePath.parent (image_path u)
  /\ PurePath.name
       (PurePath.joinpath (PurePath.parent (image_path u))
          (image_name u ++ ".yaml"))
     = image_name u ++ ".yaml"
  /\ default_meta (image_path u) (image_name u)
     = PurePath.root (image_path u)
       ++ join "/" (removelast (PurePath.tail (image_path u))
                    ++ [image_name u ++ ".yaml"])
  /\ (forall w, rfm_meta Pilatus w (image_path u) (image_name u)
                = default_meta (image_path u) (image_name u))
  /\ (forall w, environ w "UENV_REFRAME_META" = None ->
                rfm_meta Santis w (image_path u) (image_name u)
                = default_meta (image_path u) (image_name u)).
Proof.
  pose proof (parse_normal (uenv_file u)) as Np.
  fold (image_path u) in Np.
  pose proof (yaml_segment_plain _ (stem_no_slash _ Np)) as Ps.
  fold (image_name u) in Ps.
  assert (J : PurePath.joinpath (PurePath.parent (image_path u))
                (image_name u ++ ".yaml")
              = PurePath.mk (PurePath.root (image_path u))
                  (removelast (PurePath.tail (image_path u))
                   ++ [image_name u ++ ".yaml"])).
  { rewrite (joinpath_plain _ _ (parent_normal _ Np) Ps).
    now rewrite parent_eq. }
  split; [exact J|]. split; [|split; [|split; [|split]]].
  - rewrite J, !parent_eq. simpl. now rewrite removelast_last.
  - rewrite J. unfold PurePath.name. simpl. apply last_last.
  - unfold default_meta. rewrite J. unfold PurePath.to_str, PurePath.format.
    simpl.
    assert (Z : String.eqb
                  (PurePath.root (image_path u)
                   ++ join "/" (removelast (PurePath.tail (image_path u))
                                ++ [image_name u ++ ".yaml"]))
                  EmptyString = false).
    { apply String.eqb_neq. intros E.
      assert (F : Forall plain_part
                    (removelast (PurePath.tail (image_path u))
                     ++ [image_name u ++ ".yaml"])).
      { apply Forall_app. split; [|now constructor].
        pose proof (parent_normal _ Np) as Q. rewrite parent_eq in Q.
        exact (proj2 Q). }
      assert (NE : (removelast (PurePath.tail (image_path u))
                    ++ [(image_name u ++ ".yaml")%string])%list <> []).
      { intros X. apply app_eq_nil in X. destruct X. discriminate. }
      destruct (join_plain_last _ " "%char NE F) as [N _].
      apply N. destruct (PurePath.root (image_path u)); simpl in E;
        [exact E | discriminate E]. }
    now rewrite Z.
  - reflexivity.
  - intros w H. unfold rfm_meta. now rewrite H.
Qed.

Lemma metadata_next_to_image_witness :
  rfm_meta Santis host_two_pairs
    (image_path "/images/v1/prgenv.gnu.squashfs:/user-environment")
    (image_name "/images/v1/prgenv.gnu.squashfs:/user-environment")
  = default_meta
      (image_path "/images/v1/prgenv.gnu.squashfs:/user-environment")
      (image_name "/images/v1/prgenv.gnu.squashfs:/user-environment")
  /\ default_meta
       (image_path "/images/v1/prgenv.gnu.squashfs:/user-environment")
       (image_name "/images/v1/prgenv.gnu.squashfs:/user-environment")
     = "/images/v1/prgenv.gnu.yaml".
Proof.
  destruct (metadata_next_to_image
              "/images/v1/prgenv.gnu.squashfs:/user-environment")
    as (_ & _ & _ & D & _ & S).
  split; [apply S; reflexivity | rewrite D; reflexivity].
Defined.

(** ** What loading prints *)

(** X13: pilatus prints nothing.  santis prints at most one line, the
    warning about the metadata file, and a load that printed it never
    ends with a site configuration. *)
Theorem printing_means_failure (s : site) (w : World) :
  fst (load_config s w) = []
  \/ (s = Santis
      /\ snd (load_config s w) = Raise (NameError "actual_environs")
      /\ exists u err,
           environ w "UENV" = Some u
           /\ read_meta w (rfm_meta s w (image_path u) (image_name u))
              = OSError err
           /\ fst (load_config s w)
              = [warn_no_meta w (image_name u)
                   (rfm_meta s w (image_path u) (image_name u)) err]).
Proof.
  unfold load_config.
  destruct (environ w "UENV") as [u|] eqn:Hu; [|left; now destruct s].
  destruct (check_uenv s (Some u)) as [u'|e] eqn:C; [|now left].
  apply check_uenv_some in C. subst u'.
  destruct (path_exists w (PurePath.to_str (image_path u)));
    [|now left|now left].
  simpl. unfold load_metadata.
  destruct (read_meta w (rfm_meta s w (image_path u) (image_name u)))
    as [err| |v] eqn:R; [|now left|now left].
  destruct s; [|now left]. right. simpl.
  split; [reflexivity|]. split; [reflexivity|].
  exists u, err. repeat split. exact R.
Qed.

(* ================================================================== *)
(** * Further properties of the [Check] helper *)
(* ================================================================== *)

(** ** The systems of a test *)

Lemma has_space_app (a b : string) :
  has_space (a ++ b) = has_space a || has_space b.
Proof.
  induction a as [|c a IH]; simpl; [reflexivity|].
  now rewrite IH, orb_assoc.
Qed.

Lemma split_ws_aux_pieces (s : string) :
  forall cur,
    has_space cur = false ->
    Forall (fun x => x <> EmptyString /\ has_space x = false)
           (split_ws_aux s cur).
Proof.
  induction s as [|c s IH]; simpl; intros cur H.
  - destruct cur; repeat constructor; [discriminate | exact H].
  - destruct (isspace c) eqn:E.
    + destruct cur.
      * now apply IH.
      * constructor; [split; [discriminate | exact H]|]. now apply IH.
    + apply IH. rewrite has_space_app, H. simpl. now rewrite E.
Qed.

Lemma split_ws_aux_head (s : string) :
  forall cur,
    cur <> EmptyString ->
    exists more t, split_ws_aux s cur = (cur ++ more) :: t.
Proof.
  induction s as [|c s IH]; simpl; intros cur H.
  - exists EmptyString, []. rewrite string_app_nil_r.
    destruct cur; [congruence | reflexivity].
  - destruct (isspace c).
    + exists EmptyString, (split_ws_aux s EmptyString).
      rewrite string_app_nil_r. destruct cur; [congruence | reflexivity].
    + destruct (IH (cur ++ str1 c)) as (more & t & E).
      { destruct cur; simpl; discriminate. }
      exists (str1 c ++ more), t. rewrite E. now rewrite string_app_assoc.
Qed.

Lemma fix_where_sign (where_ : string) : starts_with_sign (fix_where where_).
Proof.
  unfold starts_with_sign, fix_where. destruct where_ as [|c r].
  - exists "*"%char, EmptyString. auto.
  - destruct (Ascii.eqb_spec c "-") as [->|N1].
    + exists "-"%char, r. auto.
    + destruct (Ascii.eqb_spec c "+") as [->|N2]; simpl.
      * exists "+"%char, r. auto.
      * exists "+"%char, (String c r). auto.
Qed.

(** X14: the systems of a test are never an empty list.  Its first
    element begins with [*], [-] or [+] (the [+] being supplied when the
    caller left it out), and no element is empty or contains white space.
    An empty [where] gives [['*']], while a [where] written ['*'] gets
    the [+] like any other word; for a [where] that is not empty,
    supplying the sign by hand changes nothing. *)
Theorem valid_systems_shape (where_ : string) :
  (exists first others,
     valid_systems where_ = first :: others /\ starts_with_sign first)
  /\ Forall (fun x => x <> EmptyString /\ has_space x = false)
            (valid_systems where_)
  /\ valid_systems EmptyString = ["*"]
  /\ valid_systems "*" = ["+*"]
  /\ (where_ <> EmptyString ->
      fix_where (fix_where where_) = fix_where where_
      /\ valid_systems (fix_where where_) = valid_systems where_).
Proof.
  split; [|split; [|split; [|split]]].
  - destruct (fix_where_sign where_) as (c & r & E & Hc).
    unfold valid_systems, split_ws. rewrite E. simpl.
    assert (S : isspace c = false)
      by (destruct Hc as [->|[->| ->]]; reflexivity).
    rewrite S.
    destruct (split_ws_aux_head r (str1 c)) as (more & t & H);
      [discriminate|].
    exists (str1 c ++ more), t. split; [exact H|].
    exists c, more. split; [reflexivity | exact Hc].
  - apply split_ws_aux_pieces. reflexivity.
  - reflexivity.
  - reflexivity.
  - intros Hne.
    assert (I : fix_where (fix_where where_) = fix_where where_).
    { unfold fix_where. destruct where_ as [|c r]; [congruence|].
      destruct (Ascii.eqb c "-") eqn:E1; simpl; [now rewrite E1|].
      destruct (Ascii.eqb c "+") eqn:E2; simpl; [now rewrite E1, E2|].
      reflexivity. }
    split; [exact I|]. unfold valid_systems. now rewrite I.
Qed.

Lemma valid_systems_shape_witness :
  fix_where (fix_where "gpu mc") = fix_where "gpu mc"
  /\ valid_systems (fix_where "gpu mc") = valid_systems "gpu mc".
Proof.
  destruct (valid_systems_shape "gpu mc") as (_ & _ & _ & _ & Twice).
  apply Twice. discriminate.
Defined.

(** ** Running a generated test *)

Lemma set_command_options_cls (t t' : test) :
  set_command_options t = Done t' ->
  cls t' = cls t
  /\ executable t' = Some (t_cmd (cls t))
  /\ expected t' = with_location (expected t)
  /\ not_expected t' = with_location (not_expected t).
Proof.
  unfold set_command_options. simpl.
  destruct (item1 (with_location (expected t))) as [l|e]; [|discriminate].
  destruct (is_stream l); simpl; [|discriminate].
  destruct (item1 (with_location (not_expected t))) as [l'|e']; [|discriminate].
  destruct (is_stream l'); simpl; [|discriminate].
  intros H. injection H as <-. repeat split.
Qed.

(** X15: a test whose locations are in order reaches its sanity check
    only on the system its [Check] instance requires; anywhere else it is
    skipped with a message that names both systems.  An instance whose
    [SYSTEM] was never set requires [None], so its tests are skipped on
    every system. *)
Theorem runs_on_required_system_only
    (re_search : string -> string -> bool) (out err sys : string)
    (tc : test_class) (t : test) :
  set_command_options (instantiate tc) = Done t ->
  (t_required_system tc = Some sys ->
   run_test re_search out err sys tc = validate re_search out err t)
  /\ (forall other, t_required_system tc = Some other -> other <> sys ->
      run_test re_search out err sys tc
      = Skipped ("Required sytem " ++ other ++ " but found " ++ sys ++ "."))
  /\ (t_required_system tc = None ->
      run_test re_search out err sys tc
      = Skipped ("Required sytem None but found " ++ sys ++ ".")).
Proof.
  intros H. destruct (set_command_options_cls _ _ H) as (C & _).
  simpl in C. unfold run_test. rewrite H. unfold check_system. rewrite C.
  split; [|split].
  - intros ->. now rewrite String.eqb_refl.
  - intros other -> N.
    destruct (String.eqb_spec sys other) as [E|_]; [congruence | reflexivity].
  - intros ->. reflexivity.
Qed.

Lemma runs_on_required_system_only_witness :
  run_test (fun p text => String.eqb p text) "nid" "" "santis"
    (make_test 1 plain_call)
  = Skipped "Required sytem None but found santis.".
Proof.
  destruct (runs_on_required_system_only (fun p text => String.eqb p text)
              "nid" "" "santis" (make_test 1 plain_call) _ eq_refl)
    as (_ & _ & Unset).
  apply Unset. reflexivity.
Defined.

Lemma stream_ok_inv (out err : string) (loc : pyval) (text : string) :
  stream out err loc = Ok text ->
  loc = PStr "stdout" \/ loc = PStr "stderr".
Proof.
  unfold stream. destruct loc as [|x|l|d]; try discriminate.
  destruct (String.eqb_spec x "stdout") as [->|N1]; [now left|].
  destruct (String.eqb_spec x "stderr") as [->|N2]; [now right|].
  intros H. exfalso. revert N1 N2 H.
  do 6 (destruct x as [|[[] [] [] [] [] [] [] []] x];
        try (intros; discriminate)).
  all: destruct x; intros; congruence || discriminate.
Qed.

(** X16: on its system, a test with a pattern in both fields passes
    exactly when the expected pattern is found in its stream and the
    unexpected one is not found in its own; a missing expected pattern is
    reported first. *)
Theorem sanity_verdict
    (re_search : string -> string -> bool) (out err sys : string)
    (tc : test_class) (p q : string) (le ln : pyval) (te tn : string) :
  with_location (t_expected tc) = PList [PStr p; le] ->
  with_location (t_not_expected tc) = PList [PStr q; ln] ->
  stream out err le = Ok te ->
  stream out err ln = Ok tn ->
  t_required_system tc = Some sys ->
  run_test re_search out err sys tc
  = if re_search p te
    then if re_search q tn
         then SanityError ("Did not expect '" ++ q ++ "' running '"
                           ++ (t_cmd tc ++ " " ++ t_caller tc) ++ "'")
         else Done tt
    else SanityError ("Expected '" ++ p ++ "' running '"
                      ++ (t_cmd tc ++ " " ++ t_caller tc) ++ "'").
Proof.
  intros He Hn Se Sn Hs.
  assert (Ie : is_stream le = true).
  { destruct (stream_ok_inv _ _ _ _ Se) as [->| ->]; reflexivity. }
  assert (In_ : is_stream ln = true).
  { destruct (stream_ok_inv _ _ _ _ Sn) as [->| ->]; reflexivity. }
  unfold run_test, set_command_options. simpl.
  rewrite He, Hn. simpl. rewrite Ie, In_. simpl.
  unfold check_system. simpl. rewrite Hs, String.eqb_refl. simpl.
  unfold validate, deferred_search. simpl. rewrite Se, Sn. simpl.
  destruct (re_search p te); simpl; [|reflexivity].
  destruct (re_search q tn); reflexivity.
Qed.

Lemma sanity_verdict_witness :
  run_test (fun p text => String.eqb p text) "1 received" "unreachable" "santis"
    (make_test 1 net_call)
  = SanityError
      "Did not expect 'unreachable' running 'ping -c1 nid001 [checks.py:20]'".
Proof.
  apply (sanity_verdict (fun p text => String.eqb p text)
           "1 received" "unreachable" "santis" (make_test 1 net_call)
           "1 received" "unreachable" (PStr "stdout") (PStr "stderr")
           "1 received" "unreachable"); reflexivity.
Defined.

(** X17: a check that names neither an expected nor an unexpected
    pattern searches nothing: on its system it passes whatever the
    command printed. *)
Theorem no_pattern_always_passes
    (re_search : string -> string -> bool) (out err sys : string)
    (tc : test_class) :
  t_expected tc = PNone ->
  t_not_expected tc = PNone ->
  t_required_system tc = Some sys ->
  run_test re_search out err sys tc = Done tt.
Proof.
  intros He Hn Hs. unfold run_test, set_command_options. simpl.
  rewrite He, Hn. simpl. unfold check_system. simpl.
  rewrite Hs, String.eqb_refl. reflexivity.
Qed.

Lemma no_pattern_always_passes_witness :
  run_test (fun _ _ => false) "anything" "at all" "santis"
    (make_test 1 exclude_all_call) = Done tt.
Proof.
  apply (no_pattern_always_passes (fun _ _ => false) "anything" "at all"
           "santis" (make_test 1 exclude_all_call)); reflexivity.
Defined.

(** X18: lists of the wrong length are not caught by the location test.
    A list with fewer than two items makes the hook itself fail with an
    [IndexError]; a list with more than two whose second item is a stream
    name gets past the hook and then makes the sanity function fail with
    a [ValueError] where it unpacks the pair. *)
Theorem wrong_length_lists
    (re_search : string -> string -> bool) (out err sys : string)
    (tc : test_class) :
  (t_expected tc = PList [] \/ (exists x, t_expected tc = PList [x]) ->
   run_test re_search out err sys tc = Failed IndexError)
  /\ (forall loc,
        item1 (with_location (t_expected tc)) = Ok loc ->
        loc = PStr "stdout" \/ loc = PStr "stderr" ->
        t_not_expected tc = PList [] \/ (exists x, t_not_expected tc = PList [x]) ->
        run_test re_search out err sys tc = Failed IndexError)
  /\ (forall x loc y more,
        t_expected tc = PList (x :: loc :: y :: more) ->
        loc = PStr "stdout" \/ loc = PStr "stderr" ->
        t_not_expected tc = PNone ->
        t_required_system tc = Some sys ->
        (exists t, set_command_options (instantiate tc) = Done t)
        /\ run_test re_search out err sys tc = Failed ValueError).
Proof.
  split; [|split].
  - intros [H|(x & H)]; unfold run_test, set_command_options; simpl;
      rewrite H; reflexivity.
  - intros loc L S [H|(x & H)]; unfold run_test, set_command_options; simpl;
      rewrite L, H, (is_stream_true loc S); reflexivity.
  - intros x loc y more He Hl Hn Hs.
    assert (S : set_command_options (instantiate tc)
                = Done (mkInst tc (Some (t_cmd tc))
                          (PList (x :: loc :: y :: more))
                          (PList [PNone; PStr "stdout"]))).
    { unfold set_command_options. simpl. rewrite He, Hn. simpl.
      now rewrite (is_stream_true loc Hl). }
    split; [eauto|].
    unfold run_test. rewrite S. unfold check_system. simpl.
    rewrite Hs, String.eqb_refl. simpl. reflexivity.
Qed.

Lemma wrong_length_lists_witness :
  run_test (fun p text => String.eqb p text) "ok" "" "santis"
    (make_test 1 three_items_call) = Failed ValueError
  /\ run_test (fun p text => String.eqb p text) "ok" "" "santis"
       (make_test 2 one_item_call) = Failed IndexError.
Proof.
  destruct (wrong_length_lists (fun p text => String.eqb p text)
              "ok" "" "santis" (make_test 1 three_items_call))
    as (_ & _ & Long).
  destruct (wrong_length_lists (fun p text => String.eqb p text)
              "ok" "" "santis" (make_test 2 one_item_call))
    as (_ & Short & _).
  split.
  - apply (Long (PStr "ok") (PStr "stdout") (PStr "extra") []);
      [reflexivity | now left | reflexivity | reflexivity].
  - apply (Short (PStr "stdout")); [reflexivity | now left |].
    right. now exists (PStr "panic").
Defined.

(** ** Every call is accounted for *)

Section Accounting.

Variable factory : test_class -> result unit.

Lemma call_check_outcome (c : call) (st : State) :
  (exists e, snd (call_check factory c st) = Raise e)
  <-> is_handed c = true
      /\ accepted factory (make_test (S (check_id st)) c) = false.
Proof.
  unfold call_check, is_handed, accepted.
  destruct (class_selected (c_self c)), (DEBUG (c_self c)); simpl.
  - split; [intros (e & H); discriminate | intros (H & _); discriminate].
  - destruct (factory (make_test (S (check_id st)) c)) as [[]|e]; simpl.
    + split; [intros (e & H); discriminate | intros (_ & H); discriminate].
    + split; [auto | eauto].
  - split; [intros (e & H); discriminate | intros (H & _); discriminate].
  - split; [intros (e & H); discriminate | intros (H & _); discriminate].
Qed.

Lemma printed_call (c : call) (st : State) :
  length (printed (fst (call_check factory c st)))
  = length (printed st) + (if is_printed c then 1 else 0).
Proof.
  unfold call_check, is_printed.
  destruct (class_selected (c_self c)), (DEBUG (c_self c)); simpl;
    rewrite ?List.length_app; simpl; try lia.
  destruct (factory (make_test (S (check_id st)) c)); simpl; lia.
Qed.

Lemma printed_run_calls (cs : list call) :
  forall st,
    length (printed (run_calls factory cs st))
    = length (printed st) + length (filter is_printed cs).
Proof.
  induction cs as [|c cs IH]; intros st.
  - simpl. lia.
  - rewrite run_calls_cons, IH, printed_call. simpl.
    destruct (is_printed c); simpl; lia.
Qed.

Lemma outcomes_partition (cs : list call) :
  forall id,
    length (created factory id cs) + length (refused factory id cs)
    = length (filter is_handed cs)
    /\ length (filter is_handed cs) + length (filter is_printed cs)
       + length (filter is_filtered cs) = length cs.
Proof.
  induction cs as [|c cs IH]; intros id; [split; reflexivity|].
  destruct (IH (S id)) as [H1 H2]. cbn [created refused filter length].
  unfold is_handed, is_printed, is_filtered in *.
  destruct (class_selected (c_self c)), (DEBUG (c_self c)); simpl;
    try (split; lia).
  destruct (accepted factory (make_test (S id) c)); simpl; split; lia.
Qed.

End Accounting.

(** X19: in a sequence of calls each call is filtered, printed, taken by
    the factory (and registered) or refused by it (and then raises), and
    only one of the four: the registered classes and the printed lines
    grow by the number of calls of their kind, a call raises exactly when
    the factory refuses its class, and the counter moves by the number of
    all calls. *)
Theorem calls_are_accounted_for
    (factory : test_class -> result unit) (cs : list call) (st : State) :
  length (registered (run_calls factory cs st))
  = length (registered st) + length (created factory (check_id st) cs)
  /\ length (printed (run_calls factory cs st))
     = length (printed st) + length (filter is_printed cs)
  /\ length (created factory (check_id st) cs)
     + length (refused factory (check_id st) cs)
     + length (filter is_printed cs) + length (filter is_filtered cs)
     = length cs
  /\ check_id (run_calls factory cs st) - check_id st = length cs
  /\ (forall c st0,
        (exists e, snd (call_check factory c st0) = Raise e)
        <-> class_selected (c_self c) = true
            /\ DEBUG (c_self c) = false
            /\ exists e, factory (make_test (S (check_id st0)) c) = Raise e).
Proof.
  destruct (run_calls_state factory cs st) as [I R].
  destruct (outcomes_partition factory cs (check_id st)) as [P1 P2].
  split; [rewrite R, List.length_app; reflexivity|].
  split; [apply printed_run_calls|]. split; [lia|]. split; [lia|].
  intros c st0. rewrite call_check_outcome. unfold is_handed, accepted.
  destruct (class_selected (c_self c)), (DEBUG (c_self c)); simpl;
    try (split; [intros (H & _); discriminate
                | intros (H1 & H2 & _); discriminate]).
  destruct (factory (make_test (S (check_id st0)) c)) as [[]|e].
  - split; [intros (_ & H); discriminate
           | intros (_ & _ & e & H); discriminate].
  - split; [eauto | auto].
Qed.

(** ** The star in the exclude list *)

(** X20: ['*'] in [CLASS_EXCLUDE] does not exclude.  With it there, and
    an include list that is empty or holds ['*'] too, every call goes on,
    even for a class that the exclude list names; with an include list
    without ['*'], the include list alone decides. *)
Theorem star_in_exclude_list
    (factory : test_class -> result unit) (c : call) (st : State) :
  In "*" (CLASS_EXCLUDE (c_self c)) ->
  (CLASS_INCLUDE (c_self c) = [] \/ In "*" (CLASS_INCLUDE (c_self c)) ->
   goes_on factory c st)
  /\ (CLASS_INCLUDE (c_self c) <> [] ->
      ~ In "*" (CLASS_INCLUDE (c_self c)) ->
      class_selected (c_self c)
      = str_in (CLASS (c_self c)) (CLASS_INCLUDE (c_self c))).
Proof.
  intros Hx.
  assert (Ex : fst (effective_lists (c_self c)) = CLASS_EXCLUDE (c_self c)).
  { unfold effective_lists.
    destruct (CLASS_EXCLUDE (c_self c)); [contradiction|].
    reflexivity. }
  split.
  - intros Hi. apply (proj2 (call_check_cases factory c st)).
    apply included_class; [now rewrite Ex|]. left.
    unfold effective_lists.
    destruct (CLASS_EXCLUDE (c_self c)) as [|e l]; [contradiction|].
    destruct Hi as [->|Hi]; simpl; [now left|].
    destruct (CLASS_INCLUDE (c_self c)); [contradiction | exact Hi].
  - intros Hne Hs. rewrite class_selected_eq, Ex.
    apply str_in_In in Hx. rewrite Hx. simpl.
    unfold effective_lists.
    destruct (CLASS_EXCLUDE (c_self c)) as [|e l]; [discriminate Hx|].
    destruct (CLASS_INCLUDE (c_self c)) as [|i li] eqn:Ei; [congruence|].
    simpl snd. apply str_in_not_In in Hs. now rewrite Hs.
Qed.

Lemma star_in_exclude_list_witness :
  goes_on checking_factory exclude_all_call initial.
Proof.
  destruct (star_in_exclude_list checking_factory exclude_all_call initial)
    as (On & _).
  - simpl. now left.
  - apply On. now left.
Defined.
